(** * NEET rank predictor: the analytics pipeline

    A shallow embedding of the quiz-analytics pipeline
    (src/data/data_processor.py, src/analysis/performance.py,
    src/analysis/insights.py, src/models/predictor.py,
    src/utils/helpers.py, src/visualization/charts.py) and the
    properties its specification states.

    Python floats are IEEE-754 binary64 numbers, modelled by Rocq's
    primitive floats, so sums, quotients and threshold tests compute like
    the program's.  Raising an exception is modelled by the [result]
    type.  Library functions whose algorithm is not part of this
    repository (string-to-float parsing, ISO-8601 parsing, [np.mean],
    [round]) are fields of the class [Builtins]: every general theorem
    holds for any implementation of them. *)

From Stdlib Require Import List String Ascii ZArith Bool Lia.
From Stdlib Require Import PrimFloat FloatOps SpecFloat.
From Stdlib Require Import Sorting.Sorted Sorting.Permutation.
Import ListNotations.

#[local] Open Scope string_scope.
#[local] Open Scope list_scope.
#[local] Set Warnings "-register-all,-inexact-float".

(* ===================================================================== *)
(** * Part I: the Python values and operations the program relies on     *)
(* ===================================================================== *)

Module Py.

(** ** Exceptions and results *)

(** The exception classes the pipeline can meet, with their message.
    The messages of the exceptions that Python itself raises are
    CPython 3.11's; the program reads none of them, save the one of the
    [AttributeError] that [generate_comprehensive_report] reports. *)
Inductive exn : Type :=
| ValueError (msg : string)
| TypeError (msg : string)
| AttributeError (msg : string)
| KeyError (msg : string)
| OverflowError (msg : string)
| ZeroDivisionError (msg : string).

(** [except ValueError] *)
Definition is_ValueError (e : exn) : bool :=
  match e with ValueError _ => true | _ => false end.

(** [str(e)] *)
Definition exn_str (e : exn) : string :=
  match e with
  | ValueError m | TypeError m | AttributeError m | KeyError m
  | OverflowError m | ZeroDivisionError m => m
  end.

Inductive result (A : Type) : Type :=
| Ok (a : A)
| Raise (e : exn).
Arguments Ok {A} a.
Arguments Raise {A} e.

Definition bind {A B} (r : result A) (k : A -> result B) : result B :=
  match r with
  | Ok a => k a
  | Raise e => Raise e
  end.

Definition is_ok {A} (r : result A) : bool :=
  match r with Ok _ => true | Raise _ => false end.

(** ** Values read from JSON *)

Inductive value : Type :=
| VNone
| VBool (b : bool)
| VInt (z : Z)
| VFloat (f : float)
| VStr (s : string)
| VList (l : list value)
| VDict (d : list (string * value)).

(** [type(v).__name__] *)
Definition type_name (v : value) : string :=
  match v with
  | VNone => "NoneType"
  | VBool _ => "bool"
  | VInt _ => "int"
  | VFloat _ => "float"
  | VStr _ => "str"
  | VList _ => "list"
  | VDict _ => "dict"
  end.

Definition no_attribute (v : value) (attr : string) : exn :=
  AttributeError ("'" ++ type_name v ++ "' object has no attribute '" ++ attr ++ "'").

(** ** Dictionaries

    A Python dict keeps its keys in insertion order, and the program
    iterates over them ([items()], [keys()], [values()]); it is modelled
    as an association list without repeated keys. *)

Section Dict.
Context {K V : Type} (eqb : K -> K -> bool).

(** [d.get(k)] *)
Fixpoint dict_get (k : K) (d : list (K * V)) : option V :=
  match d with
  | [] => None
  | (k', v) :: d' => if eqb k' k then Some v else dict_get k d'
  end.

(** [k in d] *)
Definition dict_mem (k : K) (d : list (K * V)) : bool :=
  match dict_get k d with Some _ => true | None => false end.

(** [d[k] = v]: an existing key keeps its place, a new one goes last. *)
Fixpoint dict_set (k : K) (v : V) (d : list (K * V)) : list (K * V) :=
  match d with
  | [] => [(k, v)]
  | (k', v') :: d' =>
      if eqb k' k then (k', v) :: d' else (k', v') :: dict_set k v d'
  end.
End Dict.

Definition dict_keys {K V} (d : list (K * V)) : list K := map fst d.
Definition dict_values {K V} (d : list (K * V)) : list V := map snd d.

(** ** Strings *)

(** [s.lstrip(c)] for a one-character set. *)
Fixpoint lstrip (c : ascii) (s : string) : string :=
  match s with
  | String a s' => if Ascii.eqb a c then lstrip c s' else s
  | EmptyString => EmptyString
  end.

(** [s.rstrip(c)] *)
Fixpoint rstrip (c : ascii) (s : string) : string :=
  match s with
  | String a s' =>
      match rstrip c s' with
      | EmptyString => if Ascii.eqb a c then EmptyString else String a EmptyString
      | r => String a r
      end
  | EmptyString => EmptyString
  end.

(** [s.strip(c)]: every leading and every trailing [c] is removed. *)
Definition strip (c : ascii) (s : string) : string := rstrip c (lstrip c s).

(** [s.replace(c, r)] for a one-character pattern: every occurrence. *)
Fixpoint replace (c : ascii) (r : string) (s : string) : string :=
  match s with
  | String a s' => if Ascii.eqb a c then r ++ replace c r s' else String a (replace c r s')
  | EmptyString => EmptyString
  end.

(** ** Floats *)

(** [float(n)] for an int [n]: rounded to nearest even. *)
Definition float_of_Z (z : Z) : float :=
  SF2Prim (binary_normalize prec emax z 0 false).

Definition float_of_nat (n : nat) : float := float_of_Z (Z.of_nat n).

(** The integer a float denotes, when it denotes one. *)
Definition float_integral (f : float) : option Z :=
  match Prim2SF f with
  | S754_zero _ => Some 0%Z
  | S754_finite s m e =>
      let sign (z : Z) := if s then Z.opp z else z in
      if (0 <=? e)%Z then Some (sign (Z.pos m * 2 ^ e)%Z)
      else if (Z.pos m mod 2 ^ (- e) =? 0)%Z then Some (sign (Z.pos m / 2 ^ (- e))%Z)
      else None
  | _ => None
  end.

(** [int(f)]: truncation towards zero. *)
Definition int_of_float (f : float) : result Z :=
  match Prim2SF f with
  | S754_nan => Raise (ValueError "cannot convert float NaN to integer")
  | S754_infinity _ => Raise (OverflowError "cannot convert float infinity to integer")
  | S754_zero _ => Ok 0%Z
  | S754_finite s m e =>
      let magnitude := if (0 <=? e)%Z then (Z.pos m * 2 ^ e)%Z else (Z.pos m / 2 ^ (- e))%Z in
      Ok (if s then Z.opp magnitude else magnitude)
  end.

(** ** Dictionary keys

    A key must be hashable, and two keys are the same when they compare
    equal: strings by content, numbers by value whatever their type
    ([True], [1] and [1.0] are one key).  (A NaN key is only found again
    by object identity, which the model does not follow.) *)

Definition hashable (v : value) : bool :=
  match v with
  | VList _ | VDict _ => false
  | _ => true
  end.

Definition key_number (v : value) : option (Z + float) :=
  match v with
  | VBool b => Some (inl (Z.b2z b))
  | VInt z => Some (inl z)
  | VFloat f =>
      Some (match float_integral f with Some z => inl z | None => inr f end)
  | _ => None
  end.

Definition key_eqb (a b : value) : bool :=
  match a, b with
  | VNone, VNone => true
  | VStr x, VStr y => String.eqb x y
  | _, _ =>
      match key_number a, key_number b with
      | Some (inl x), Some (inl y) => Z.eqb x y
      | Some (inr f), Some (inr g) => PrimFloat.eqb f g
      | _, _ => false
      end
  end.

Definition unhashable (v : value) : exn :=
  TypeError ("unhashable type: '" ++ type_name v ++ "'").

(** [k in d], for a dict with arbitrary keys *)
Definition key_in {V} (k : value) (d : list (value * V)) : result bool :=
  if hashable k then Ok (dict_mem key_eqb k d) else Raise (unhashable k).

(** ** Datetimes

    A [datetime] is its wall-clock reading, counted in microseconds, and
    its UTC offset when it is timezone-aware. *)

Record datetime : Type := {
  wall : Z;
  utcoffset : option Z
}.

Definition naive_aware : exn :=
  TypeError "can't compare offset-naive and offset-aware datetimes".

(** [a < b]: two naive datetimes compare by their readings, two aware
    ones by their instants, and a naive with an aware one raises. *)
Definition datetime_lt (a b : datetime) : result bool :=
  match utcoffset a, utcoffset b with
  | None, None => Ok (wall a <? wall b)%Z
  | Some oa, Some ob => Ok (wall a - oa <? wall b - ob)%Z
  | _, _ => Raise naive_aware
  end.

(** [a > b] *)
Definition datetime_gt (a b : datetime) : result bool := datetime_lt b a.

End Py.
Import Py.

Declare Scope py_scope.
Delimit Scope py_scope with py.
Notation "x <- c ;; k" := (bind c (fun x => k))
  (at level 61, c at next level, right associativity) : py_scope.
#[local] Open Scope py_scope.

(** ** Library functions taken as given

    [float_of_str s] is [float(s)] for a string, [None] standing for its
    [ValueError]; [fromisoformat s] is [datetime.fromisoformat(s)], [None]
    standing for its [ValueError]; [repr] and [datetime_str] are [repr(v)]
    and [str(d)]; [np_mean] is [numpy.mean] on a list of floats (NaN on
    the empty list); [round2 x] is [round(x, 2)]. *)

Class Builtins : Type := {
  float_of_str : string -> option float;
  fromisoformat : string -> option datetime;
  repr : value -> string;
  datetime_str : datetime -> string;
  np_mean : list float -> float;
  round2 : float -> float
}.

Section Conversions.
Context {B : Builtins}.

(** [str(v)] *)
Definition py_str (v : value) : string :=
  match v with
  | VStr s => s
  | _ => repr v
  end.

(** [float(n)] for an int: too large an int raises. *)
Definition float_of_int (z : Z) : result float :=
  let f := float_of_Z z in
  if is_infinity f then Raise (OverflowError "int too large to convert to float")
  else Ok f.

(** [float(v)] *)
Definition py_float (v : value) : result float :=
  match v with
  | VStr s =>
      match float_of_str s with
      | Some f => Ok f
      | None => Raise (ValueError ("could not convert string to float: " ++ repr v))
      end
  | VInt z => float_of_int z
  | VBool b => Ok (if b then one else zero)
  | VFloat f => Ok f
  | _ => Raise (TypeError ("float() argument must be a string or a real number, not '"
                           ++ type_name v ++ "'"))
  end.

(** [d[k]] on a dict with string keys *)
Definition dict_item (k : string) (d : list (string * value)) : result value :=
  match dict_get String.eqb k d with
  | Some v => Ok v
  | None => Raise (KeyError (repr (VStr k)))
  end.

(** [d[k]] on a dict with arbitrary keys *)
Definition key_item {V} (k : value) (d : list (value * V)) : result V :=
  if hashable k then
    match dict_get key_eqb k d with
    | Some v => Ok v
    | None => Raise (KeyError (repr k))
    end
  else Raise (unhashable k).

(** [sorted(l, key=...)] with datetime keys: a stable sort that only
    asks whether one key is less than another.  Python's algorithm asks
    in another order, with the same outcome: a stable sort has one
    result when the keys compare, and no sort can order a list that
    holds a naive and an aware key without comparing two such keys,
    which raises.  [insert_sorted x l] puts [x], which came before every
    element of [l], in front of the first element that is not less than
    it. *)
Fixpoint insert_sorted {A} (key : A -> datetime) (x : A) (l : list A)
  : result (list A) :=
  match l with
  | [] => Ok [x]
  | y :: l' =>
      lt <- datetime_lt (key y) (key x) ;;
      if lt then (r <- insert_sorted key x l' ;; Ok (y :: r))
      else Ok (x :: l)
  end.

Fixpoint sorted {A} (key : A -> datetime) (l : list A) : result (list A) :=
  match l with
  | [] => Ok []
  | x :: l' => s <- sorted key l' ;; insert_sorted key x s
  end.

(** [max(l, key=...)] with datetime keys: the first element whose key
    no later element exceeds. *)
Fixpoint max_from {A} (key : A -> datetime) (best : A) (l : list A) : result A :=
  match l with
  | [] => Ok best
  | x :: l' =>
      gt <- datetime_gt (key x) (key best) ;;
      max_from key (if gt then x else best) l'
  end.

Definition py_max {A} (key : A -> datetime) (l : list A) : result A :=
  match l with
  | [] => Raise (ValueError "max() arg is an empty sequence")
  | x :: l' => max_from key x l'
  end.

(** [for x in l: st = body(st, x)], stopping at the first exception *)
Fixpoint for_each {S A} (body : S -> A -> result S) (st : S) (l : list A)
  : result S :=
  match l with
  | [] => Ok st
  | x :: l' => st' <- body st x ;; for_each body st' l'
  end.

(** [[f(x) for x in l]], stopping at the first exception *)
Fixpoint map_result {A C} (f : A -> result C) (l : list A) : result (list C) :=
  match l with
  | [] => Ok []
  | x :: l' => y <- f x ;; ys <- map_result f l' ;; Ok (y :: ys)
  end.
End Conversions.

(* ===================================================================== *)
(** * Part II: the program                                               *)
(* ===================================================================== *)

(** ** src/models/student.py *)

(** The dataclass does not check its annotations: the fields that
    [preprocess_quiz_submission] copies from the raw mapping hold whatever
    value the mapping held, so they are [value]s here ([accuracy],
    [final_score] and [topic] are declared [str]). *)
Record QuizSubmission : Type := {
  id : value;
  quiz_id : value;
  user_id : value;
  submitted_at : datetime;
  score : float;
  accuracy : value;
  speed : value;
  final_score : value;
  correct_answers : value;
  incorrect_answers : value;
  total_questions : value;
  response_map : value;
  topic : value
}.

(** [perf_user_id] is the dataclass's [user_id]. *)
Record StudentPerformance : Type := {
  perf_user_id : value;
  quiz_history : list QuizSubmission;
  topic_wise_accuracy : list (value * float);
  weak_areas : list value;
  improvement_trends : list (value * list float);
  predicted_rank : option Z;
  recommended_colleges : option (list string)
}.

(** ** src/utils/constants.py *)

Definition WEAK_PERFORMANCE_THRESHOLD : float := 0.4.
Definition AVERAGE_PERFORMANCE_THRESHOLD : float := 0.6.
Definition GOOD_PERFORMANCE_THRESHOLD : float := 0.75.

Definition NEET_TOPICS : list string := [
  "Human Physiology";
  "Body Fluids and Circulation";
  "Reproduction";
  "Reproductive Health";
  "Principles of Inheritance and Variation";
  "Microbes in Human Welfare";
  "Human Health and Disease";
  "Structural Organisation in Animals"
].

(** ** src/utils/helpers.py *)

Definition categorize_performance (accuracy : float) : string :=
  if (GOOD_PERFORMANCE_THRESHOLD <=? accuracy)%float then "Good"
  else if (accuracy <=? WEAK_PERFORMANCE_THRESHOLD)%float then "Needs Improvement"
  else "Average".

(** ** src/data/data_processor.py

    ([extract_topic_performance], which builds a pandas frame for no
    caller, is left out.) *)

Section DataProcessor.
Context {B : Builtins}.

Definition required_fields : list string :=
  ["id"; "quiz_id"; "user_id"; "submitted_at"; "score"; "accuracy"; "final_score"].

(** The validation loop: the first required field that is absent is
    reported. *)
Fixpoint validate_required (fields : list string) (raw_data : list (string * value))
  : result unit :=
  match fields with
  | [] => Ok tt
  | field :: rest =>
      if negb (dict_mem String.eqb field raw_data)
      then Raise (ValueError ("Missing required field: " ++ field))
      else validate_required rest raw_data
  end.

(** [datetime.fromisoformat(v.replace('Z', '+00:00'))].  (A string
    that does not read raises [ValueError]; CPython words some of these
    errors otherwise, by the field out of range.  The properties rest
    on the class of the exception, not on its text.) *)
Definition parse_submitted_at (v : value) : result datetime :=
  match v with
  | VStr s =>
      let s' := replace "Z" "+00:00" s in
      match fromisoformat s' with
      | Some d => Ok d
      | None => Raise (ValueError ("Invalid isoformat string: " ++ repr (VStr s')))
      end
  | _ => Raise (no_attribute v "replace")
  end.

(** [raw_data.get('quiz', {}).get('topic', 'Unknown')] *)
Definition extract_topic (raw_data : list (string * value)) : result value :=
  match dict_get String.eqb "quiz" raw_data with
  | None => Ok (VStr "Unknown")
  | Some (VDict quiz) =>
      Ok (match dict_get String.eqb "topic" quiz with
          | Some t => t
          | None => VStr "Unknown"
          end)
  | Some v => Raise (no_attribute v "get")
  end.

(** [raw_data.get(k, default)] *)
Definition get_default (k : string) (default : value) (raw_data : list (string * value))
  : value :=
  match dict_get String.eqb k raw_data with
  | Some v => v
  | None => default
  end.

Definition preprocess_quiz_submission (raw_data : list (string * value))
  : result QuizSubmission :=
  _ <- validate_required required_fields raw_data ;;
  raw_submitted_at <- dict_item "submitted_at" raw_data ;;
  submitted_at <- parse_submitted_at raw_submitted_at ;;
  topic <- extract_topic raw_data ;;
  id <- dict_item "id" raw_data ;;
  quiz_id <- dict_item "quiz_id" raw_data ;;
  user_id <- dict_item "user_id" raw_data ;;
  raw_score <- dict_item "score" raw_data ;;
  score <- py_float raw_score ;;
  accuracy <- dict_item "accuracy" raw_data ;;
  final_score <- dict_item "final_score" raw_data ;;
  Ok {| id := id;
        quiz_id := quiz_id;
        user_id := user_id;
        submitted_at := submitted_at;
        score := score;
        accuracy := accuracy;
        speed := get_default "speed" (VStr "0") raw_data;
        final_score := final_score;
        correct_answers := get_default "correct_answers" (VInt 0) raw_data;
        incorrect_answers := get_default "incorrect_answers" (VInt 0) raw_data;
        total_questions := get_default "total_questions" (VInt 0) raw_data;
        response_map := get_default "response_map" (VDict []) raw_data;
        topic := topic |}.

(** The loop of [process_historical_data]: a submission whose
    processing raises [ValueError] is skipped (the message it prints is
    not modelled), any other exception leaves the loop. *)
Fixpoint process_loop (processed_data : list QuizSubmission)
    (raw_data : list (list (string * value))) : result (list QuizSubmission) :=
  match raw_data with
  | [] => Ok processed_data
  | submission :: rest =>
      match preprocess_quiz_submission submission with
      | Ok processed => process_loop (processed_data ++ [processed]) rest
      | Raise e =>
          if is_ValueError e then process_loop processed_data rest
          else Raise e
      end
  end.

Definition process_historical_data (raw_data : list (list (string * value)))
  : result (list QuizSubmission) :=
  process_loop [] raw_data.
End DataProcessor.

(** ** src/analysis/performance.py *)

Section PerformanceAnalyzer.
Context {B : Builtins}.

(** [float(quiz.accuracy.strip('%')) / 100], the expression by which
    performance.py and insights.py each read an accuracy. *)
Definition accuracy_fraction (quiz : QuizSubmission) : result float :=
  match accuracy quiz with
  | VStr s => f <- py_float (VStr (strip "%" s)) ;; Ok (f / 100)%float
  | v => Raise (no_attribute v "strip")
  end.

(** The body of the loop of [analyze_topic_performance], on the pair
    [(topic_scores, topic_counts)].  A score starts as the int [0] and
    is a float from the first addition on. *)
Definition topic_performance_step
    (st : list (value * float) * list (value * Z)) (quiz : QuizSubmission)
  : result (list (value * float) * list (value * Z)) :=
  let '(topic_scores, topic_counts) := st in
  seen <- key_in (topic quiz) topic_scores ;;
  let topic_scores :=
    if seen then topic_scores else dict_set key_eqb (topic quiz) zero topic_scores in
  let topic_counts :=
    if seen then topic_counts else dict_set key_eqb (topic quiz) 0%Z topic_counts in
  old_score <- key_item (topic quiz) topic_scores ;;
  fraction <- accuracy_fraction quiz ;;
  let topic_scores := dict_set key_eqb (topic quiz) (old_score + fraction)%float topic_scores in
  old_count <- key_item (topic quiz) topic_counts ;;
  let topic_counts := dict_set key_eqb (topic quiz) (old_count + 1)%Z topic_counts in
  Ok (topic_scores, topic_counts).

(** [score / count] for a float and an int.  (A count is at most the
    length of a list, far below the [2^1024] from which its conversion
    to a float would overflow.) *)
Definition truediv (score : float) (count : Z) : result float :=
  if (count =? 0)%Z then Raise (ZeroDivisionError "float division by zero")
  else Ok (score / float_of_Z count)%float.

Definition analyze_topic_performance (quiz_history : list QuizSubmission)
  : result (list (value * float)) :=
  st <- for_each topic_performance_step ([], []) quiz_history ;;
  let '(topic_scores, topic_counts) := st in
  map_result
    (fun '(topic, (score, count)) => q <- truediv score count ;; Ok (topic, q))
    (combine (dict_keys topic_scores)
             (combine (dict_values topic_scores) (dict_values topic_counts))).

Definition WEAKNESS_THRESHOLD : float := 0.6.

Definition identify_weak_areas (topic_performance : list (value * float)) : list value :=
  map fst (filter (fun '(_, score) => (score <? WEAKNESS_THRESHOLD)%float) topic_performance).

(** The body of the loop of [calculate_improvement_trends]. *)
Definition improvement_trends_step
    (topic_trends : list (value * list float)) (quiz : QuizSubmission)
  : result (list (value * list float)) :=
  seen <- key_in (topic quiz) topic_trends ;;
  let topic_trends :=
    if seen then topic_trends else dict_set key_eqb (topic quiz) [] topic_trends in
  trend <- key_item (topic quiz) topic_trends ;;
  fraction <- accuracy_fraction quiz ;;
  Ok (dict_set key_eqb (topic quiz) (trend ++ [fraction]) topic_trends).

Definition calculate_improvement_trends (quiz_history : list QuizSubmission)
  : result (list (value * list float)) :=
  sorted_quizzes <- sorted submitted_at quiz_history ;;
  for_each improvement_trends_step [] sorted_quizzes.

Definition analyze_student_performance (quiz_history : list QuizSubmission)
  : result StudentPerformance :=
  match quiz_history with
  | [] => Raise (ValueError "Quiz history is empty")
  | first :: _ =>
      topic_performance <- analyze_topic_performance quiz_history ;;
      let weak_areas := identify_weak_areas topic_performance in
      improvement_trends <- calculate_improvement_trends quiz_history ;;
      Ok {| perf_user_id := user_id first;
            quiz_history := quiz_history;
            topic_wise_accuracy := topic_performance;
            weak_areas := weak_areas;
            improvement_trends := improvement_trends;
            predicted_rank := None;
            recommended_colleges := None |}
  end.
End PerformanceAnalyzer.

(** ** src/models/predictor.py

    ([train], which fits the scikit-learn forest and sets [is_trained],
    is left out: the forest is outside the repository.) *)

Section RankPredictor.
Context {B : Builtins}.

(** The estimator: [model] stands for [self.model.predict] on one row
    of features, and is only consulted once [is_trained] is set. *)
Record RankPredictor : Type := {
  model : list float -> float;
  is_trained : bool
}.

(** [trend[-1] - trend[0]] *)
Definition trend_delta (trend : list float) : float :=
  (last trend zero - hd zero trend)%float.

(** The row of the 1-by-4 array that [_extract_features] returns. *)
Definition _extract_features (performance : StudentPerformance) : result (list float) :=
  let avg_accuracy := np_mean (dict_values (topic_wise_accuracy performance)) in
  let avg_improvement :=
    np_mean (map trend_delta
               (filter (fun trend => (1 <? List.length trend)%nat)
                       (dict_values (improvement_trends performance)))) in
  latest_quiz <- py_max submitted_at (quiz_history performance) ;;
  latest_score <- py_float (final_score latest_quiz) ;;
  Ok [avg_accuracy;
      float_of_nat (List.length (weak_areas performance));
      avg_improvement;
      latest_score].

Definition predict_rank (self : RankPredictor) (performance : StudentPerformance)
  : result Z :=
  if negb (is_trained self) then Ok 5000%Z
  else
    features <- _extract_features performance ;;
    let predicted_rank := model self features in
    int_of_float predicted_rank.

Definition predict_colleges (predicted_rank : Z) : list string :=
  ["All India Institute of Medical Sciences";
   "Christian Medical College";
   "Armed Forces Medical College"].
End RankPredictor.

(** ** src/analysis/insights.py

    ([_serialize_value] and [_safe_process] are left out: the first is
    only called when [json.dumps] rejects the report, which it never
    does, and the second has no caller.) *)

Section InsightGenerator.
Context {B : Builtins}.

(** An entry of [processed_quizzes]. *)
Record ProcessedQuiz : Type := {
  pq_topic : string;
  pq_accuracy : float;
  pq_score : float;
  pq_date : string
}.

(** An entry of [topic_insights]. *)
Record TopicInsight : Type := {
  ti_score : float;
  ti_status : string;
  ti_recommendations : list string
}.

(** An entry of [weak_areas]. *)
Record WeakArea : Type := {
  wa_topic : string;
  wa_current_score : string;
  wa_priority : string
}.

(** The body of the first loop, on [(accuracies, processed_quizzes)]:
    the accuracy is appended before the entry is built, and any
    exception skips the rest of the body. *)
Definition process_quiz (st : list float * list ProcessedQuiz) (quiz : QuizSubmission)
  : list float * list ProcessedQuiz :=
  let '(accuracies, processed_quizzes) := st in
  match accuracy_fraction quiz with
  | Raise _ => st
  | Ok fraction =>
      let accuracies := accuracies ++ [fraction] in
      match py_float (final_score quiz) with
      | Raise _ => (accuracies, processed_quizzes)
      | Ok sc =>
          (accuracies,
           processed_quizzes ++
             [{| pq_topic := py_str (topic quiz);
                 pq_accuracy := fraction;
                 pq_score := sc;
                 pq_date := datetime_str (submitted_at quiz) |}])
      end
  end.

(** The body of the loop that fills [topic_stats]: per topic, the lists
    [accuracies] and [scores]. *)
Definition topic_stats_step (topic_stats : list (string * (list float * list float)))
    (quiz : ProcessedQuiz) : list (string * (list float * list float)) :=
  let topic_stats :=
    if dict_mem String.eqb (pq_topic quiz) topic_stats then topic_stats
    else dict_set String.eqb (pq_topic quiz) ([], []) topic_stats in
  match dict_get String.eqb (pq_topic quiz) topic_stats with
  | Some (accuracies, scores) =>
      dict_set String.eqb (pq_topic quiz)
        (accuracies ++ [pq_accuracy quiz], scores ++ [pq_score quiz]) topic_stats
  | None => topic_stats
  end.

(** [self._categorize_performance(avg_accuracy)].  The class defines
    [__init__], [_serialize_value], [_safe_process] and
    [generate_comprehensive_report], and its instances hold
    [improvement_threshold] and [min_quizzes_for_trend]: there is no
    attribute of this name, so the lookup raises before any call. *)
Definition self_categorize_performance (avg_accuracy : float) : result string :=
  Raise (AttributeError
           "'InsightGenerator' object has no attribute '_categorize_performance'").

Definition recommendation (topic : string) (avg_accuracy : float) : string :=
  if (avg_accuracy <? 0.6)%float then "Focus on " ++ topic ++ " fundamentals"
  else if (avg_accuracy <? 0.8)%float then "Practice more " ++ topic ++ " problems"
  else "Maintain performance in " ++ topic.

(** The body of the loop that fills [topic_insights]. *)
Definition topic_insights_step (topic_insights : list (string * TopicInsight))
    (entry : string * (list float * list float)) : result (list (string * TopicInsight)) :=
  let '(topic, (accuracies, _)) := entry in
  let avg_accuracy := np_mean accuracies in
  let sc := round2 (avg_accuracy * 100)%float in
  status <- self_categorize_performance avg_accuracy ;;
  Ok (dict_set String.eqb topic
        {| ti_score := sc;
           ti_status := status;
           ti_recommendations := [recommendation topic avg_accuracy] |}
        topic_insights).

(** The weak areas: the topics scoring below 70. *)
Definition identify_weak (topic_insights : list (string * TopicInsight)) : list WeakArea :=
  map (fun '(topic, data) =>
         {| wa_topic := topic;
            wa_current_score := repr (VFloat (ti_score data)) ++ "%";
            wa_priority := if (ti_score data <? 60)%float then "High" else "Medium" |})
      (filter (fun '(_, data) => (ti_score data <? 70)%float) topic_insights).

Definition insight_value (data : TopicInsight) : value :=
  VDict [("score", VFloat (ti_score data));
         ("status", VStr (ti_status data));
         ("recommendations", VList (map VStr (ti_recommendations data)))].

Definition weak_area_value (area : WeakArea) : value :=
  VDict [("topic", VStr (wa_topic area));
         ("current_score", VStr (wa_current_score area));
         ("priority", VStr (wa_priority area))].

Definition recommendation_value (area : WeakArea) : value :=
  VDict [("area", VStr (wa_topic area));
         ("action", VStr ("Intensive practice needed in " ++ wa_topic area));
         ("priority", VStr (wa_priority area))].

(** [len(set(...))] on strings *)
Definition count_distinct (l : list string) : nat :=
  List.length (nodup string_dec l).

(** The report of a non-empty history, before the enclosing [except].
    (Every value of the report is a float, an int, a string, a list or
    a dict with string keys, so [json.dumps] accepts it and the report
    is returned as it is.) *)
Definition build_report (now : string) (quiz_history : list QuizSubmission)
  : result value :=
  let '(accuracies, processed_quizzes) := fold_left process_quiz quiz_history ([], []) in
  let average_accuracy := round2 (np_mean accuracies * 100)%float in
  let total_quizzes := List.length processed_quizzes in
  let unique_topics := count_distinct (map pq_topic processed_quizzes) in
  let topic_stats := fold_left topic_stats_step processed_quizzes [] in
  topic_insights <- for_each topic_insights_step [] topic_stats ;;
  let weak_areas := identify_weak topic_insights in
  Ok (VDict [
    ("overall_statistics", VDict [
       ("average_accuracy", VFloat average_accuracy);
       ("total_quizzes", VInt (Z.of_nat total_quizzes));
       ("topics_covered", VInt (Z.of_nat unique_topics));
       ("topics_needing_improvement", VInt (Z.of_nat (List.length weak_areas)))]);
    ("topic_insights", VDict (map (fun '(t, data) => (t, insight_value data)) topic_insights));
    ("weak_areas", VList (map weak_area_value weak_areas));
    ("recommendations", VList (map recommendation_value weak_areas));
    ("uncovered_topics",
       VList (map VStr (filter (fun t => negb (dict_mem String.eqb t topic_insights))
                               NEET_TOPICS)));
    ("generated_at", VStr now)]).

(** [now] is what [datetime.now().isoformat()] reads when the report is
    returned. *)
Definition generate_comprehensive_report (now : string) (quiz_history : list QuizSubmission)
  : value :=
  match quiz_history with
  | [] => VDict [("error", VStr "No quiz history available"); ("generated_at", VStr now)]
  | _ =>
      match build_report now quiz_history with
      | Ok report => report
      | Raise e => VDict [("error", VStr (exn_str e)); ("generated_at", VStr now)]
      end
  end.
End InsightGenerator.

(* ===================================================================== *)
(** * Part III: an implementation of the library functions, for examples *)
(* ===================================================================== *)

(** The general theorems hold for every [Builtins].  To run the program
    on concrete inputs, [Sample.builtins] implements them on the inputs
    the examples use: plain decimal numbers, ISO timestamps of the shape
    [YYYY-MM-DDTHH:MM:SS] with an optional [+HH:MM] or [-HH:MM] offset,
    and means of short lists.  On these inputs it agrees with Python; on
    others [float_of_str] and [fromisoformat] answer [None]. *)

Module Sample.

Definition digit_of (a : ascii) : option Z :=
  let n := Z.of_nat (nat_of_ascii a) in
  if ((48 <=? n) && (n <=? 57))%Z then Some (n - 48)%Z else None.

(** The number a string of digits writes, [acc] being the digits read. *)
Fixpoint digits_value (acc : Z) (s : string) : option Z :=
  match s with
  | EmptyString => Some acc
  | String a s' =>
      match digit_of a with
      | Some d => digits_value (10 * acc + d) s'
      | None => None
      end
  end.

(** The text before and after the first ['.'] *)
Fixpoint split_point (s : string) : string * option string :=
  match s with
  | EmptyString => (EmptyString, None)
  | String a s' =>
      if Ascii.eqb a "." then (EmptyString, Some s')
      else let '(i, f) := split_point s' in (String a i, f)
  end.

(** [float(s)] for [digits] or [digits.digits], blanks around allowed.
    With at most 15 digits in all, the quotient of the two exactly
    represented integers is the correctly rounded value. *)
Definition decimal_float (s : string) : option float :=
  let s := strip " " s in
  let '(i, f) := split_point s in
  let f := match f with Some f => f | None => EmptyString end in
  if ((String.length i =? 0)%nat || (15 <? String.length i + String.length f)%nat)%bool
  then None
  else
    match digits_value 0 (i ++ f) with
    | Some n => Some (float_of_Z n / float_of_Z (10 ^ Z.of_nat (String.length f)))%float
    | None => None
    end.

(** Days from 1970-01-01 to a date of the proleptic Gregorian calendar. *)
Definition days_from_civil (y m d : Z) : Z :=
  let y := if (m <=? 2)%Z then (y - 1)%Z else y in
  let era := (y / 400)%Z in
  let yoe := (y - era * 400)%Z in
  let doy := ((153 * (if (2 <? m)%Z then m - 3 else m + 9) + 2) / 5 + d - 1)%Z in
  let doe := (yoe * 365 + yoe / 4 - yoe / 100 + doy)%Z in
  (era * 146097 + doe - 719468)%Z.

Definition is_leap (y : Z) : bool :=
  ((y mod 4 =? 0) && (negb (y mod 100 =? 0) || (y mod 400 =? 0)))%Z.

Definition days_in_month (y m : Z) : Z :=
  if (m =? 2)%Z then (if is_leap y then 29 else 28)%Z
  else if ((m =? 4) || (m =? 6) || (m =? 9) || (m =? 11))%Z then 30%Z
  else 31%Z.

(** A field of [n] digits followed by the rest of the text *)
Definition take_number (n : nat) (s : string) : option (Z * string) :=
  if (String.length s <? n)%nat then None
  else
    match digits_value 0 (substring 0 n s) with
    | Some z => Some (z, substring n (String.length s - n) s)
    | None => None
    end.

Definition take_char (c : ascii) (s : string) : option string :=
  match s with
  | String a s' => if Ascii.eqb a c then Some s' else None
  | EmptyString => None
  end.

Definition offset_of (s : string) : option (option Z) :=
  match s with
  | EmptyString => Some None
  | String sign s' =>
      if (Ascii.eqb sign "+" || Ascii.eqb sign "-")%bool then
        match take_number 2 s' with
        | Some (h, s1) =>
            match take_char ":" s1 with
            | Some s2 =>
                match take_number 2 s2 with
                | Some (mi, EmptyString) =>
                    if ((h <? 24) && (mi <? 60))%Z then
                      let off := ((h * 3600 + mi * 60) * 1000000)%Z in
                      Some (Some (if Ascii.eqb sign "-" then Z.opp off else off))
                    else None
                | _ => None
                end
            | None => None
            end
        | None => None
        end
      else None
  end.

Definition iso_datetime (s : string) : option datetime :=
  match take_number 4 s with
  | Some (y, s) =>
  match take_char "-" s with
  | Some s =>
  match take_number 2 s with
  | Some (m, s) =>
  match take_char "-" s with
  | Some s =>
  match take_number 2 s with
  | Some (d, s) =>
  match take_char "T" s with
  | Some s =>
  match take_number 2 s with
  | Some (h, s) =>
  match take_char ":" s with
  | Some s =>
  match take_number 2 s with
  | Some (mi, s) =>
  match take_char ":" s with
  | Some s =>
  match take_number 2 s with
  | Some (sec, s) =>
      match offset_of s with
      | Some off =>
          if ((1 <=? y) && (1 <=? m) && (m <=? 12) && (1 <=? d) && (d <=? days_in_month y m)
              && (h <? 24) && (mi <? 60) && (sec <? 60))%Z
          then Some {| wall := ((days_from_civil y m d * 86400 + h * 3600 + mi * 60 + sec)
                                * 1000000)%Z;
                       utcoffset := off |}
          else None
      | None => None
      end
  | None => None end | None => None end | None => None end | None => None end
  | None => None end | None => None end | None => None end | None => None end
  | None => None end | None => None end | None => None end.

(** Decimal writing of a natural number *)
Fixpoint decimal_of (fuel : nat) (n : Z) (acc : string) : string :=
  match fuel with
  | O => acc
  | S fuel' =>
      let acc := String (ascii_of_nat (Z.to_nat (48 + n mod 10))) acc in
      if (n <? 10)%Z then acc else decimal_of fuel' (n / 10) acc
  end.

Definition int_repr (z : Z) : string :=
  let digits := decimal_of (S (Z.to_nat (Z.log2 (Z.abs z)))) (Z.abs z) EmptyString in
  if (z <? 0)%Z then String "-" digits else digits.

(** [repr] of [None], booleans, ints and strings without quotes or
    escapes; no example reads the text of another value. *)
Definition sample_repr (v : value) : string :=
  match v with
  | VNone => "None"
  | VBool b => if b then "True" else "False"
  | VInt z => int_repr z
  | VStr s => "'" ++ s ++ "'"
  | _ => "..."
  end.

(** The sum from left to right divided by the count: [numpy.mean] on the
    short lists of the examples. *)
Definition mean (l : list float) : float :=
  (fold_left PrimFloat.add l zero / float_of_nat (List.length l))%float.

(** [datetime_str] and [round2] are stand-ins: no example reads a date
    text or a rounded score. *)
#[local] Instance builtins : Builtins := {|
  float_of_str := decimal_float;
  fromisoformat := iso_datetime;
  repr := sample_repr;
  datetime_str := fun _ => EmptyString;
  np_mean := mean;
  round2 := fun x => x
|}.

End Sample.

(* ===================================================================== *)
(** * Part IV: the vocabulary of the specification                       *)
(* ===================================================================== *)

Section Vocabulary.
Context {B : Builtins}.

Definition is_str (v : value) : bool :=
  match v with VStr _ => true | _ => false end.

(** A submission as the dataclass declares it and the specification
    assumes it: the topic is a string and the accuracy is a string
    that, once its percent signs are stripped, reads as a number. *)
Definition well_formed (quiz : QuizSubmission) : bool :=
  is_str (topic quiz) &&
  match accuracy quiz with
  | VStr s => match float_of_str (strip "%" s) with Some _ => true | None => false end
  | _ => false
  end.

(** The accuracy of a well-formed submission, as a fraction. *)
Definition fraction (quiz : QuizSubmission) : float :=
  match accuracy quiz with
  | VStr s =>
      match float_of_str (strip "%" s) with
      | Some f => (f / 100)%float
      | None => nan
      end
  | _ => nan
  end.

(** The position of a datetime on its time line. *)
Definition instant (d : datetime) : Z :=
  match utcoffset d with
  | Some o => (wall d - o)%Z
  | None => wall d
  end.

Definition aware (d : datetime) : bool :=
  match utcoffset d with Some _ => true | None => false end.

(** Timestamps that can be ordered: all naive, or all aware. *)
Definition comparable (quiz_history : list QuizSubmission) : bool :=
  forallb (fun q => negb (aware (submitted_at q))) quiz_history
  || forallb (fun q => aware (submitted_at q)) quiz_history.

(** The submissions of a topic, in the order of the history. *)
Definition submissions_of (t : value) (quiz_history : list QuizSubmission)
  : list QuizSubmission :=
  filter (fun q => key_eqb (topic q) t) quiz_history.

(** The distinct topics of a history, in order of first appearance. *)
Definition topics_of (quiz_history : list QuizSubmission) : list value :=
  fold_left
    (fun seen q => if existsb (key_eqb (topic q)) seen then seen else seen ++ [topic q])
    quiz_history [].

(** Per topic, what a loop accumulates from the accuracies of the
    topic's submissions, starting from [init]. *)
Definition accumulated {V} (init : V) (op : V -> float -> V) (t : value)
    (quiz_history : list QuizSubmission) : V :=
  fold_left op (map fraction (submissions_of t quiz_history)) init.

Definition grouped {V} (init : V) (op : V -> float -> V)
    (quiz_history : list QuizSubmission) : list (value * V) :=
  map (fun t => (t, accumulated init op t quiz_history)) (topics_of quiz_history).

(** What the three loops accumulate: a sum from [0], a count from [0]
    ([add_one]) and a list from [[]] ([snoc]). *)
Definition add_one (count : Z) (_ : float) : Z := (count + 1)%Z.
Definition snoc (trend : list float) (x : float) : list float := trend ++ [x].

(** Mean accuracy of a topic: [sum(accuracies) / count]. *)
Definition mean_accuracy (t : value) (quiz_history : list QuizSubmission) : float :=
  (fold_left PrimFloat.add (map fraction (submissions_of t quiz_history)) zero
   / float_of_nat (List.length (submissions_of t quiz_history)))%float.

(** A stable sort by timestamp, written on the time line: [place x l]
    puts [x] in front of the first element that is not earlier. *)
Fixpoint place (x : QuizSubmission) (l : list QuizSubmission) : list QuizSubmission :=
  match l with
  | [] => [x]
  | y :: l' =>
      if (instant (submitted_at y) <? instant (submitted_at x))%Z
      then y :: place x l'
      else x :: l
  end.

Fixpoint chronological (l : list QuizSubmission) : list QuizSubmission :=
  match l with
  | [] => []
  | x :: l' => place x (chronological l')
  end.

(** The submissions taken at instant [k], in the order of the list. *)
Definition taken_at (k : Z) (l : list QuizSubmission) : list QuizSubmission :=
  filter (fun q => (instant (submitted_at q) =? k)%Z) l.

Definition not_later (a b : QuizSubmission) : Prop :=
  (instant (submitted_at a) <= instant (submitted_at b))%Z.

(** [l] is [quizzes] in ascending order of timestamp, submissions with
    equal timestamps keeping the order they have in [quizzes]. *)
Definition stably_sorted (quizzes l : list QuizSubmission) : Prop :=
  Permutation l quizzes /\
  StronglySorted not_later l /\
  forall k, taken_at k l = taken_at k quizzes.

(** The later of two submissions, the first one on a tie. *)
Definition later_of (best x : QuizSubmission) : QuizSubmission :=
  if (instant (submitted_at best) <? instant (submitted_at x))%Z then x else best.

(** The deltas that enter the third feature: last minus first, for the
    trends with at least two points. *)
Definition improvement_deltas (trends : list (value * list float)) : list float :=
  map (fun trend => (last trend zero - hd zero trend)%float)
      (filter (fun trend => (2 <=? List.length trend)%nat) (dict_values trends)).

(** What the specification asks of the status label. *)
Definition status_label (accuracy : float) : string :=
  if (0.75 <=? accuracy)%float then "Good"
  else if (accuracy <=? 0.4)%float then "Needs Improvement"
  else "Average".

(** The report that the lookup of the missing method leads to. *)
Definition missing_method_report (now : string) : value :=
  VDict [("error",
          VStr "'InsightGenerator' object has no attribute '_categorize_performance'");
         ("generated_at", VStr now)].

(** [report["topic_insights"]], when the report has the key *)
Definition topic_insights_of (report : value) : option value :=
  match report with
  | VDict entries => dict_get String.eqb "topic_insights" entries
  | _ => None
  end.

(** The records of a batch that normalize, in the order of the batch. *)
Fixpoint normalized (raw_data : list (list (string * value))) : list QuizSubmission :=
  match raw_data with
  | [] => []
  | submission :: rest =>
      match preprocess_quiz_submission submission with
      | Ok q => q :: normalized rest
      | Raise _ => normalized rest
      end
  end.

(** The number of records of a batch that fail to normalize. *)
Definition failures (raw_data : list (list (string * value))) : nat :=
  List.length (filter (fun r => negb (is_ok (preprocess_quiz_submission r))) raw_data).

(** [s.endswith('%')] *)
Fixpoint has_percent_suffix (s : string) : bool :=
  match s with
  | EmptyString => false
  | String a EmptyString => Ascii.eqb a "%"
  | String _ s' => has_percent_suffix s'
  end.

Definition has_required_fields (raw_data : list (string * value)) : bool :=
  forallb (fun field => dict_mem String.eqb field raw_data) required_fields.

(** What the specification asks of normalization about the accuracy: a
    submission whose accuracy lacks the percent sign, or does not read
    as a number once the sign is stripped, is rejected. *)
Definition spec_accuracy_is_validated : Prop :=
  forall (raw_data : list (string * value)) (s : string),
    dict_get String.eqb "accuracy" raw_data = Some (VStr s) ->
    has_percent_suffix s = false \/ float_of_str (strip "%" s) = None ->
    is_ok (preprocess_quiz_submission raw_data) = false.

(** What the specification asks of the batch normalizer: whatever the
    batch, the records that normalize are returned. *)
Definition spec_batch_returns_what_normalizes : Prop :=
  forall raw_data : list (list (string * value)),
    process_historical_data raw_data = Ok (normalized raw_data).

(** The submission [q] with another accuracy. *)
Definition with_accuracy (v : value) (q : QuizSubmission) : QuizSubmission :=
  {| id := id q; quiz_id := quiz_id q; user_id := user_id q;
     submitted_at := submitted_at q; score := score q;
     accuracy := v; speed := speed q; final_score := final_score q;
     correct_answers := correct_answers q;
     incorrect_answers := incorrect_answers q;
     total_questions := total_questions q;
     response_map := response_map q; topic := topic q |}.

(** Every failure of a record of the batch is a [ValueError]. *)
Definition only_value_errors (raw_data : list (list (string * value))) : bool :=
  forallb (fun r => match preprocess_quiz_submission r with
                    | Ok _ => true
                    | Raise e => is_ValueError e
                    end) raw_data.
End Vocabulary.

(** Histories whose submissions are all well formed, key lists made of
    strings, and histories whose timestamps are all of one kind. *)
Abbreviation str_keys ks := (Forall (fun k => is_str k = true) ks).
Abbreviation all_well_formed p := (Forall (fun q => well_formed q = true) p).
Abbreviation uniform b l := (Forall (fun q => aware (submitted_at q) = b) l).

(* ===================================================================== *)
(** * Part V: worked inputs                                              *)
(* ===================================================================== *)

Module Scenario.

Definition raw_submission (n : Z) (submitted : value) (topic accuracy final_score : string)
  : list (string * value) :=
  [("id", VInt n); ("quiz_id", VInt 7); ("user_id", VStr "student-1");
   ("submitted_at", submitted); ("score", VInt 32);
   ("accuracy", VStr accuracy); ("final_score", VStr final_score);
   ("quiz", VDict [("topic", VStr topic)])].

Definition day1 : string := "2024-01-01T10:00:00Z".
Definition day2 : string := "2024-01-02T10:00:00Z".

Definition raw_physiology1 := raw_submission 1 (VStr day1) "Physiology" "80%" "40".
Definition raw_physiology2 := raw_submission 2 (VStr day2) "Physiology" "60%" "30".
Definition raw_genetics := raw_submission 3 (VStr day1) "Genetics" "30%" "10".

(** A record whose accuracy has no percent sign and is not a number. *)
Definition raw_accuracy_abc := raw_submission 4 (VStr day1) "Genetics" "abc" "10".

(** A record whose accuracy is a number without the percent sign. *)
Definition raw_accuracy_bare := raw_submission 5 (VStr day1) "Genetics" "80" "10".

(** A record that lacks [score] and [final_score]. *)
Definition raw_missing : list (string * value) :=
  [("id", VInt 6); ("quiz_id", VInt 7); ("user_id", VStr "student-1");
   ("submitted_at", VStr day1); ("accuracy", VStr "80%")].

(** A record whose timestamp is a number, not a string. *)
Definition raw_timestamp_int := raw_submission 8 (VInt 1704103200) "Genetics" "30%" "10".

(** A record whose timestamp is not in ISO format. *)
Definition raw_timestamp_text := raw_submission 9 (VStr "yesterday") "Genetics" "30%" "10".

(** A record whose score is [null], and one whose score is a word. *)
Definition raw_score_none : list (string * value) :=
  Py.dict_set String.eqb "score" VNone (raw_submission 10 (VStr day2) "Genetics" "30%" "10").
Definition raw_score_text : list (string * value) :=
  Py.dict_set String.eqb "score" (VStr "high")
    (raw_submission 11 (VStr day2) "Genetics" "30%" "10").

(** Batches: one whose bad records all fail with [ValueError], and two
    with a record that fails otherwise. *)
Definition batch_skipped : list (list (string * value)) :=
  [raw_physiology1; raw_timestamp_text; raw_missing; raw_score_text; raw_genetics].
Definition batch_null_score : list (list (string * value)) :=
  [raw_physiology1; raw_score_none; raw_genetics].
Definition batch_int_timestamp : list (list (string * value)) :=
  [raw_genetics; raw_timestamp_int; raw_physiology2].

Definition at_ (wall : Z) : datetime := {| wall := wall; utcoffset := Some 0%Z |}.

Definition submission (n : Z) (at_time : datetime) (topic accuracy final_score : string)
  : QuizSubmission :=
  {| id := VInt n; quiz_id := VInt 7; user_id := VStr "student-1";
     submitted_at := at_time; score := 32;
     accuracy := VStr accuracy; speed := VStr "0"; final_score := VStr final_score;
     correct_answers := VInt 0; incorrect_answers := VInt 0; total_questions := VInt 0;
     response_map := VDict []; topic := VStr topic |}.

Definition t1 : datetime := at_ 1704103200000000.
Definition t2 : datetime := at_ 1704189600000000.

Definition physiology1 := submission 1 t1 "Physiology" "80%" "40".
Definition physiology2 := submission 2 t2 "Physiology" "60%" "30".
Definition genetics := submission 3 t1 "Genetics" "30%" "10".

(** The history of the specification's concrete scenario. *)
Definition history : list QuizSubmission := [physiology1; physiology2; genetics].

(** The same submissions, the later one first. *)
Definition shuffled : list QuizSubmission := [physiology2; genetics; physiology1].

Definition performance : StudentPerformance :=
  {| perf_user_id := VStr "student-1";
     quiz_history := history;
     topic_wise_accuracy := [(VStr "Physiology", 0.7%float); (VStr "Genetics", 0.3%float)];
     weak_areas := [VStr "Genetics"];
     improvement_trends := [(VStr "Physiology", [0.8; 0.6]%float); (VStr "Genetics", [0.3%float])];
     predicted_rank := None;
     recommended_colleges := None |}.

Definition untrained : RankPredictor := {| model := fun _ => zero; is_trained := false |}.

End Scenario.

(* ===================================================================== *)
(** * Part V-b: more of the program, and the words to speak of it        *)
(* ===================================================================== *)

(** ** src/utils/helpers.py: the other helpers *)

Section Helpers.
Context {B : Builtins}.

Definition SIGNIFICANT_IMPROVEMENT : float := 0.1.

(** [a / b] on floats: a zero divisor, of either sign, raises. *)
Definition float_truediv (a b : float) : result float :=
  if (b =? 0)%float then Raise (ZeroDivisionError "float division by zero")
  else Ok (a / b)%float.

(** The scores are floats, as annotated. *)
Definition detect_significant_improvement (scores : list float) : result bool :=
  if (List.length scores <? 2)%nat then Ok false
  else
    ratio <- float_truediv (last scores zero - hd zero scores) (hd zero scores) ;;
    Ok (SIGNIFICANT_IMPROVEMENT <=? ratio)%float.

(** [datetime.fromisoformat(v)], with the same reserve on the text of
    the [ValueError] as for [parse_submitted_at]. *)
Definition activity_time (v : value) : result datetime :=
  match v with
  | VStr s =>
      match fromisoformat s with
      | Some d => Ok d
      | None => Raise (ValueError ("Invalid isoformat string: " ++ repr v))
      end
  | _ => Raise (TypeError "fromisoformat: argument must be str")
  end.

(** The comprehension of [get_recent_activities]. *)
Fixpoint activities_after (cutoff_date : datetime) (activities : list (list (string * value)))
  : result (list (list (string * value))) :=
  match activities with
  | [] => Ok []
  | activity :: rest =>
      raw <- dict_item "submitted_at" activity ;;
      taken <- activity_time raw ;;
      keep <- datetime_gt taken cutoff_date ;;
      kept <- activities_after cutoff_date rest ;;
      Ok (if keep then activity :: kept else kept)
  end.

(** [cutoff] is the reading, in microseconds, of the naive datetime
    that the first statement computes,
    [datetime.now() - timedelta(days=days)].  (When [days] or the date
    is out of range that statement raises [OverflowError] and no
    activity is read.) *)
Definition get_recent_activities (cutoff : Z) (activities : list (list (string * value)))
  : result (list (list (string * value))) :=
  let cutoff_date := {| wall := cutoff; utcoffset := None |} in
  activities_after cutoff_date activities.
End Helpers.

(** ** Words for the properties of Part VIII *)

Section MoreVocabulary.
Context {B : Builtins}.

(** The three checks of normalization besides the required fields. *)
Definition timestamp_reads (raw_data : list (string * value)) : bool :=
  match dict_get String.eqb "submitted_at" raw_data with
  | Some (VStr s) =>
      match fromisoformat (replace "Z" "+00:00" s) with Some _ => true | None => false end
  | _ => false
  end.

Definition quiz_is_mapping (raw_data : list (string * value)) : bool :=
  match dict_get String.eqb "quiz" raw_data with
  | None | Some (VDict _) => true
  | Some _ => false
  end.

Definition score_converts (raw_data : list (string * value)) : bool :=
  match dict_get String.eqb "score" raw_data with
  | Some v => is_ok (py_float v)
  | None => false
  end.

(** The topic a raw mapping carries, if it carries one. *)
Definition carried_topic (raw_data : list (string * value)) : option value :=
  match dict_get String.eqb "quiz" raw_data with
  | Some (VDict quiz) => dict_get String.eqb "topic" quiz
  | _ => None
  end.

(** A step of the batch loop written as a function of the record. *)
Definition keep_or_skip (processed_data : list QuizSubmission)
    (submission : list (string * value)) : result (list QuizSubmission) :=
  match preprocess_quiz_submission submission with
  | Ok q => Ok (processed_data ++ [q])
  | Raise e => if is_ValueError e then Ok processed_data else Raise e
  end.

(** The number of points of all trends. *)
Definition total_points (trends : list (value * list float)) : nat :=
  list_sum (map (fun entry => List.length (snd entry)) trends).

(** No two elements of a list of instants are equal. *)
Fixpoint all_distinct (l : list Z) : bool :=
  match l with
  | [] => true
  | x :: l' => negb (existsb (Z.eqb x) l') && all_distinct l'
  end.

Definition distinct_timestamps (quiz_history : list QuizSubmission) : bool :=
  all_distinct (map (fun q => instant (submitted_at q)) quiz_history).

(** The latest submission of a non-empty history, the first one on a
    tie. *)
Definition latest_of (first : QuizSubmission) (rest : list QuizSubmission)
  : QuizSubmission :=
  fold_left later_of rest first.

(** A submission that the first loop of the synthesizer keeps: its
    accuracy and its final score both read as numbers. *)
Definition processable (quiz : QuizSubmission) : bool :=
  is_ok (accuracy_fraction quiz) && is_ok (py_float (final_score quiz)).

(** The accuracies that loop collects: those that read, whatever the
    final score. *)
Definition accuracies_read (quiz_history : list QuizSubmission) : list float :=
  flat_map (fun q => match accuracy_fraction q with
                     | Ok f => [f]
                     | Raise _ => []
                     end) quiz_history.

Definition empty_history_report (now : string) : value :=
  VDict [("error", VStr "No quiz history available"); ("generated_at", VStr now)].

(** The report of a history none of whose submissions is processable:
    nothing counted, nothing covered. *)
Definition blank_report (now : string) (average_accuracy : float) : value :=
  VDict [
    ("overall_statistics", VDict [
       ("average_accuracy", VFloat average_accuracy);
       ("total_quizzes", VInt 0);
       ("topics_covered", VInt 0);
       ("topics_needing_improvement", VInt 0)]);
    ("topic_insights", VDict []);
    ("weak_areas", VList []);
    ("recommendations", VList []);
    ("uncovered_topics", VList (map VStr NEET_TOPICS));
    ("generated_at", VStr now)].

End MoreVocabulary.

Section HelperVocabulary.
Context {B : Builtins}.

(** The timestamp an activity reads as, when it has one that reads. *)
Definition reading (activity : list (string * value)) : option datetime :=
  match dict_get String.eqb "submitted_at" activity with
  | Some (VStr s) => fromisoformat s
  | _ => None
  end.

(** An activity strictly later than the cutoff, both read as naive. *)
Definition after_cutoff (cutoff : Z) (activity : list (string * value)) : bool :=
  match reading activity with
  | Some taken => (cutoff <? wall taken)%Z
  | None => false
  end.
End HelperVocabulary.

(** ** src/visualization/charts.py: [generate_improvement_chart]

    The chart of the trends that the aggregator returns.  It raises two
    exceptions that nothing else in the program raises; they are kept
    apart from [exn]. *)

Section ImprovementChart.
Context {B : Builtins}.

Inductive chart_exn : Type :=
  | StopIteration
  | IndexError (msg : string).

Inductive chart_result (A : Type) : Type :=
  | Drawn (a : A)
  | Stopped (e : chart_exn).
#[global] Arguments Drawn {A} a.
#[global] Arguments Stopped {A} e.

Definition is_drawn {A} (r : chart_result A) : bool :=
  match r with Drawn _ => true | Stopped _ => false end.

(** An entry of ['series']. *)
Record Series : Type := {
  series_name : value;
  series_dataKey : value;
  series_color : string
}.

(** The dict that the chart returns: each element of ['data'] is a dict
    from ['quiz'] and from the topics to the label and the scores. *)
Record ImprovementChart : Type := {
  chart_data : list (list (value * value));
  chart_axes : value;
  chart_series : list Series
}.

(** The inner loop, [data_point[topic] = round(scores[quiz_num - 1] * 100, 2)]:
    [quiz_num] is at least 1, so the index is never negative. *)
Fixpoint fill_data_point (quiz_num : nat) (data_point : list (value * value))
    (improvement_data : list (value * list float))
  : chart_result (list (value * value)) :=
  match improvement_data with
  | [] => Drawn data_point
  | (topic, scores) :: rest =>
      match nth_error scores (quiz_num - 1) with
      | Some score =>
          fill_data_point quiz_num
            (dict_set key_eqb topic (VFloat (round2 (score * 100)%float)) data_point)
            rest
      | None => Stopped (IndexError "list index out of range")
      end
  end.

(** The outer loop, over [quiz_numbers]. *)
Fixpoint chart_points (improvement_data : list (value * list float))
    (quiz_numbers : list nat) : chart_result (list (list (value * value))) :=
  match quiz_numbers with
  | [] => Drawn []
  | quiz_num :: rest =>
      let data_point :=
        [(VStr "quiz", VStr ("Quiz " ++ repr (VInt (Z.of_nat quiz_num))))] in
      match fill_data_point quiz_num data_point improvement_data with
      | Stopped e => Stopped e
      | Drawn data_point =>
          match chart_points improvement_data rest with
          | Stopped e => Stopped e
          | Drawn chart_data => Drawn (data_point :: chart_data)
          end
      end
  end.

(** The comprehension of ['series'], from index [i] on. *)
Fixpoint series_from (i : nat) (topics : list value) : list Series :=
  match topics with
  | [] => []
  | topic :: rest =>
      {| series_name := topic;
         series_dataKey := topic;
         series_color := "hsl(" ++ repr (VInt (Z.of_nat i * 45)) ++ ", 70%, 50%)" |}
      :: series_from (S i) rest
  end.

Definition improvement_axes : value :=
  VDict [("x", VDict [("label", VStr "Quiz Number"); ("dataKey", VStr "quiz")]);
         ("y", VDict [("label", VStr "Score (%)"); ("domain", VList [VInt 0; VInt 100])])].

Definition generate_improvement_chart (improvement_data : list (value * list float))
  : chart_result ImprovementChart :=
  match dict_values improvement_data with
  | [] => Stopped StopIteration
  | first :: _ =>
      let quiz_numbers := seq 1 (List.length first) in
      match chart_points improvement_data quiz_numbers with
      | Stopped e => Stopped e
      | Drawn chart_data =>
          Drawn {| chart_data := chart_data;
                   chart_axes := improvement_axes;
                   chart_series := series_from 0 (dict_keys improvement_data) |}
      end
  end.

(** Every trend has a score for quiz number [quiz_num]. *)
Definition reaches (quiz_num : nat) (improvement_data : list (value * list float)) : bool :=
  forallb (fun entry => (quiz_num <=? List.length (snd entry))%nat) improvement_data.

(** How many submissions of a history have the topic [t]. *)
Definition times (t : value) (quiz_history : list QuizSubmission) : nat :=
  List.length (submissions_of t quiz_history).
End ImprovementChart.

(** ** src/visualization/charts.py: [generate_difficulty_distribution]

    Each quiz is read as the list [quiz['questions']] of its question
    dicts.  The model returns the ['data'] of the chart; its ['axes']
    and ['series'] are constants. *)

Section DifficultyChart.
Context {B : Builtins}.

(** [bool(v)], the test of an [if] *)
Definition truthy (v : value) : bool :=
  match v with
  | VNone => false
  | VBool b => b
  | VInt z => negb (z =? 0)%Z
  | VFloat f => negb (f =? 0)%float
  | VStr s => negb (String.eqb s "")
  | VList l => match l with [] => false | _ => true end
  | VDict d => match d with [] => false | _ => true end
  end.

(** An entry of [stats]. *)
Record LevelStats : Type := {
  total : Z;
  correct : Z
}.

Definition initial_stats : list (string * LevelStats) :=
  [("Easy", {| total := 0; correct := 0 |});
   ("Medium", {| total := 0; correct := 0 |});
   ("Hard", {| total := 0; correct := 0 |})].

(** [stats[level]], with the key under which the entry is found *)
Definition stats_item (level : value) (stats : list (string * LevelStats))
  : result (string * LevelStats) :=
  if hashable level then
    match level with
    | VStr s =>
        match dict_get String.eqb s stats with
        | Some data => Ok (s, data)
        | None => Raise (KeyError (repr level))
        end
    | _ => Raise (KeyError (repr level))
    end
  else Raise (unhashable level).

(** The body of the inner loop. *)
Definition count_question (stats : list (string * LevelStats))
    (question : list (string * value)) : result (list (string * LevelStats)) :=
  level <- dict_item "difficulty" question ;;
  found <- stats_item level stats ;;
  let '(name, data) := found in
  let data := {| total := total data + 1; correct := correct data |} in
  is_correct <- dict_item "is_correct" question ;;
  let data :=
    if truthy is_correct then {| total := total data; correct := correct data + 1 |}
    else data in
  Ok (dict_set String.eqb name data stats).

(** An element of [chart_data]. *)
Record DifficultyRow : Type := {
  dr_level : string;
  dr_total : Z;
  dr_correct : Z;
  dr_accuracy : value
}.

(** [round((correct / total * 100), 2) if total > 0 else 0]: a float,
    or the int [0].  (The counts are far below [2^53], so they convert
    to floats exactly and the quotient of the floats is the quotient
    of the ints.) *)
Definition level_accuracy (data : LevelStats) : value :=
  if (0 <? total data)%Z
  then VFloat (round2 (float_of_Z (correct data) / float_of_Z (total data) * 100)%float)
  else VInt 0.

Definition difficulty_row (entry : string * LevelStats) : DifficultyRow :=
  let '(level, data) := entry in
  {| dr_level := level;
     dr_total := total data;
     dr_correct := correct data;
     dr_accuracy := level_accuracy data |}.

Definition generate_difficulty_distribution
    (quiz_data : list (list (list (string * value)))) : result (list DifficultyRow) :=
  stats <- for_each (fun stats questions => for_each count_question stats questions)
                    initial_stats quiz_data ;;
  Ok (map difficulty_row stats).

(** A question of the level [name]. *)
Definition asked (name : string) (question : list (string * value)) : bool :=
  match dict_get String.eqb "difficulty" question with
  | Some (VStr s) => String.eqb name s
  | _ => false
  end.

(** A question answered correctly. *)
Definition answered (question : list (string * value)) : bool :=
  match dict_get String.eqb "is_correct" question with
  | Some v => truthy v
  | None => false
  end.

(** A question the chart can count: it says whether it was answered
    correctly, and its level is one of the three. *)
Definition countable (question : list (string * value)) : bool :=
  (asked "Easy" question || asked "Medium" question || asked "Hard" question)
  && dict_mem String.eqb "is_correct" question.

(** The counts of a level over some questions. *)
Definition level_counts (name : string) (questions : list (list (string * value)))
  : LevelStats :=
  {| total := Z.of_nat (List.length (filter (asked name) questions));
     correct := Z.of_nat (List.length (filter answered (filter (asked name) questions))) |}.
(** What the counts of a level become when [questions] are counted on
    top of [data]. *)
Definition more (data : LevelStats) (name : string)
    (questions : list (list (string * value))) : LevelStats :=
  {| total := total data + total (level_counts name questions);
     correct := correct data + correct (level_counts name questions) |}.

(** [stats], by the counts of its three levels. *)
Definition levels (easy medium hard : LevelStats) : list (string * LevelStats) :=
  [("Easy", easy); ("Medium", medium); ("Hard", hard)].
End DifficultyChart.

(** ** More worked inputs *)

Module MoreScenario.
Import Scenario.

(** A record with the required fields and nothing else, and the
    submission it normalizes to. *)
Definition raw_bare : list (string * value) :=
  [("id", VInt 12); ("quiz_id", VInt 7); ("user_id", VStr "student-1");
   ("submitted_at", VStr day1); ("score", VInt 32);
   ("accuracy", VStr "80%"); ("final_score", VStr "40")].

Definition bare : QuizSubmission :=
  {| id := VInt 12; quiz_id := VInt 7; user_id := VStr "student-1";
     submitted_at := t1; score := 32;
     accuracy := VStr "80%"; speed := VStr "0"; final_score := VStr "40";
     correct_answers := VInt 0; incorrect_answers := VInt 0; total_questions := VInt 0;
     response_map := VDict []; topic := VStr "Unknown" |}.

(** A submission whose accuracy is not a number. *)
Definition unreadable := submission 4 t1 "Genetics" "abc" "10".

(** A submission whose timestamp carries no offset, in a history whose
    other timestamp carries one. *)
Definition naive_genetics :=
  submission 5 {| wall := 1704103200000000; utcoffset := None |} "Genetics" "30%" "10".
Definition mixed : list QuizSubmission := [physiology1; naive_genetics].

(** A history with three different timestamps, and what the aggregator
    returns on it. *)
Definition t3 : datetime := at_ 1704276000000000.
Definition genetics3 := submission 3 t3 "Genetics" "30%" "10".
Definition in_order : list QuizSubmission := [physiology1; physiology2; genetics3].

Definition analysed : StudentPerformance :=
  {| perf_user_id := VStr "student-1";
     quiz_history := in_order;
     topic_wise_accuracy := [(VStr "Physiology", 0.7%float); (VStr "Genetics", 0.3%float)];
     weak_areas := [VStr "Genetics"];
     improvement_trends := [(VStr "Physiology", [0.8; 0.6]%float); (VStr "Genetics", [0.3%float])];
     predicted_rank := None;
     recommended_colleges := None |}.

(** Activities, by their timestamps, and a cutoff on the first day at
    ten. *)
Definition activity (submitted : string) : list (string * value) :=
  [("id", VInt 1); ("submitted_at", VStr submitted)].
Definition late := activity "2024-01-02T10:00:00".
Definition early := activity "2023-12-31T10:00:00".
Definition with_offset := activity "2024-01-02T10:00:00+00:00".
Definition first_day_at_ten : Z := 1704103200000000.

(** Two quizzes of three questions in all. *)
Definition question (level : string) (right : bool) : list (string * value) :=
  [("difficulty", VStr level); ("is_correct", VBool right)].
Definition two_quizzes : list (list (list (string * value))) :=
  [[question "Easy" true; question "Hard" false]; [question "Easy" false]].
Definition three_rows : list DifficultyRow :=
  [{| dr_level := "Easy"; dr_total := 2; dr_correct := 1; dr_accuracy := VFloat 50 |};
   {| dr_level := "Medium"; dr_total := 0; dr_correct := 0; dr_accuracy := VInt 0 |};
   {| dr_level := "Hard"; dr_total := 1; dr_correct := 0; dr_accuracy := VFloat 0 |}].

End MoreScenario.

(** ** The claims on the aggregator and the estimator, as worded and as
    the program has them *)

Section ClaimWords.
Context {B : Builtins}.

(** A submission of the topic named [t]: its topic is that very string,
    character for character. *)
Definition has_topic (t : string) (quiz : QuizSubmission) : bool :=
  match topic quiz with
  | VStr s => String.eqb s t
  | _ => false
  end.

(** [sum(l) / len(l)], the sum taken from the left. *)
Definition arithmetic_mean (l : list float) : float :=
  (fold_left PrimFloat.add l zero / float_of_nat (List.length l))%float.

(** The mean accuracy of the submissions of the topic named [t]. *)
Definition mean_of (t : string) (quiz_history : list QuizSubmission) : float :=
  arithmetic_mean (map fraction (filter (has_topic t) quiz_history)).

(** What the aggregator returns about means and weak areas, in the
    words of the specification: each topic of the history has one
    entry, its mean, and the weak areas are the topics whose mean is
    below 0.6. *)
Definition means_and_weak_areas (quiz_history : list QuizSubmission)
    (performance : StudentPerformance) : Prop :=
  NoDup (dict_keys (topic_wise_accuracy performance)) /\
  (forall k m,
     In (k, m) (topic_wise_accuracy performance) <->
     exists t, k = VStr t /\ existsb (has_topic t) quiz_history = true /\
               m = mean_of t quiz_history) /\
  (forall k,
     In k (weak_areas performance) <->
     exists t, k = VStr t /\ existsb (has_topic t) quiz_history = true /\
               (mean_of t quiz_history <? 0.6)%float = true).

(** What the specification asks of the aggregator: whatever the
    non-empty history, it returns the means and the weak areas. *)
Definition spec_means_of_every_history : Prop :=
  forall quiz_history : list QuizSubmission,
    quiz_history <> [] ->
    exists performance,
      analyze_student_performance quiz_history = Ok performance /\
      means_and_weak_areas quiz_history performance.

(** What the aggregator returns about trends, in the words of the
    specification: every topic of the means has a trend, the accuracies
    of its submissions in a stable ascending order of timestamp, one
    point per submission. *)
Definition trends_of_every_topic (quiz_history : list QuizSubmission)
    (performance : StudentPerformance) : Prop :=
  forall t, In t (dict_keys (topic_wise_accuracy performance)) ->
    In t (dict_keys (improvement_trends performance)) /\
    exists l,
      dict_get key_eqb t (improvement_trends performance) = Some (map fraction l) /\
      stably_sorted (submissions_of t quiz_history) l /\
      List.length (map fraction l) = List.length (submissions_of t quiz_history).

(** What the specification asks of the trends: whatever the non-empty
    history. *)
Definition spec_trends_of_every_history : Prop :=
  forall quiz_history : list QuizSubmission,
    quiz_history <> [] ->
    exists performance,
      analyze_student_performance quiz_history = Ok performance /\
      trends_of_every_topic quiz_history performance.

(** [delta] is what a trend gained from its first point to its last. *)
Definition gained (trend : list float) (delta : float) : Prop :=
  exists x between y, trend = x :: between ++ [y] /\ delta = (y - x)%float.

(** The trends that have at least two points. *)
Definition trends_with_two_points (performance : StudentPerformance) : list (list float) :=
  filter (fun trend => (2 <=? List.length trend)%nat)
         (dict_values (improvement_trends performance)).

(** The feature vector of a performance, in the words of the
    specification: four elements, of which the third averages the gains
    of the trends with at least two points and the fourth is the final
    score of [latest]. *)
Definition four_features (performance : StudentPerformance) (latest : QuizSubmission)
    (features : list float) : Prop :=
  exists deltas latest_score,
    features = [np_mean (dict_values (topic_wise_accuracy performance));
                float_of_nat (List.length (weak_areas performance));
                np_mean deltas;
                latest_score] /\
    Forall2 gained (trends_with_two_points performance) deltas /\
    py_float (final_score latest) = Ok latest_score.

(** [latest] is the most recent submission of a history: none is later,
    and those before it in the list are earlier. *)
Definition most_recent (quiz_history : list QuizSubmission) (latest : QuizSubmission)
  : Prop :=
  exists before after,
    quiz_history = before ++ latest :: after /\
    (forall q, In q before ->
       (instant (submitted_at q) < instant (submitted_at latest))%Z) /\
    (forall q, In q after ->
       (instant (submitted_at q) <= instant (submitted_at latest))%Z).

(** What the specification asks of the estimator: whatever the
    performance, it has its four features. *)
Definition spec_features_of_every_performance : Prop :=
  forall performance : StudentPerformance,
    exists latest features,
      _extract_features performance = Ok features /\
      most_recent (quiz_history performance) latest /\
      four_features performance latest features.
End ClaimWords.

(** ** Inputs on which the claims as worded fail *)

Module Refuting.
Import Scenario.

(** A record whose timestamp has no offset, where the others end in Z. *)
Definition raw_no_offset :=
  raw_submission 14 (VStr "2024-01-02T10:00:00") "Physiology" "60%" "30".
Definition no_offset : QuizSubmission :=
  submission 14 {| wall := 1704189600000000; utcoffset := None |} "Physiology" "60%" "30".

(** A submission whose accuracy is not a number, as the normalizer
    returns it. *)
Definition accuracy_abc : QuizSubmission := submission 4 t1 "Genetics" "abc" "10".

(** A record whose final score is not a number, the latest of its
    batch. *)
Definition raw_final_abc := raw_submission 15 (VStr day2) "Physiology" "60%" "abc".
Definition final_abc : QuizSubmission := submission 15 t2 "Physiology" "60%" "abc".

Definition analysed_final_abc : StudentPerformance :=
  {| perf_user_id := VStr "student-1";
     quiz_history := [physiology1; final_abc];
     topic_wise_accuracy := [(VStr "Physiology", 0.7%float)];
     weak_areas := [];
     improvement_trends := [(VStr "Physiology", [0.8; 0.6]%float)];
     predicted_rank := None;
     recommended_colleges := None |}.

End Refuting.

(* ===================================================================== *)
(** * Part VI: properties                                                *)
(* ===================================================================== *)

(** ** Results and dictionaries *)

Lemma bind_ok {A C} (r : result A) (k : A -> result C) (c : C) :
  bind r k = Ok c -> exists a, r = Ok a /\ k a = Ok c.
Proof. destruct r as [a|e]; simpl; [eauto | discriminate]. Qed.

Lemma string_eqb_true (a b : string) : String.eqb a b = true <-> a = b.
Proof. apply String.eqb_eq. Qed.

Section StringDict.
Context {V : Type}.
Implicit Types (d : list (string * V)) (k : string).

Lemma dict_get_set k k' (v : V) d :
  dict_get String.eqb k (dict_set String.eqb k' v d)
  = if String.eqb k' k then Some v else dict_get String.eqb k d.
Proof.
  induction d as [|[k0 v0] d IH]; simpl.
  - reflexivity.
  - destruct (String.eqb k0 k') eqn:E0; simpl.
    + apply String.eqb_eq in E0; subst k0.
      destruct (String.eqb k' k); reflexivity.
    + rewrite IH. destruct (String.eqb k0 k) eqn:E1; [|reflexivity].
      apply String.eqb_eq in E1; subst k0.
      now rewrite String.eqb_sym, E0.
Qed.

Lemma dict_mem_set k k' (v : V) d :
  dict_mem String.eqb k (dict_set String.eqb k' v d)
  = (String.eqb k' k || dict_mem String.eqb k d)%bool.
Proof.
  unfold dict_mem. rewrite dict_get_set.
  destruct (String.eqb k' k); reflexivity.
Qed.
End StringDict.

(** ** The submission normalizer *)

Section Normalizer.
Context {B : Builtins}.
Implicit Types (raw_data : list (string * value)).

Lemma validate_required_ok fields raw_data :
  forallb (fun f => dict_mem String.eqb f raw_data) fields = true ->
  validate_required fields raw_data = Ok tt.
Proof.
  induction fields as [|f fields IH]; simpl; [reflexivity|].
  intros H. apply andb_prop in H as [Hf Hrest].
  rewrite Hf. simpl. auto.
Qed.

(** The field that is reported is the first one, in the order of
    [required_fields], that the mapping lacks. *)
Lemma validate_required_missing fields raw_data :
  forallb (fun f => dict_mem String.eqb f raw_data) fields = false ->
  exists before field after,
    fields = before ++ field :: after /\
    forallb (fun f => dict_mem String.eqb f raw_data) before = true /\
    dict_mem String.eqb field raw_data = false /\
    validate_required fields raw_data
    = Raise (ValueError ("Missing required field: " ++ field)).
Proof.
  induction fields as [|f fields IH]; simpl; [discriminate|].
  destruct (dict_mem String.eqb f raw_data) eqn:Hf; simpl.
  - intros H. destruct (IH H) as (before & field & after & -> & Hb & Hm & Hv).
    exists (f :: before), field, after. simpl. rewrite Hf. auto.
  - intros _. exists [], f, fields. auto.
Qed.

Lemma preprocess_validates raw_data q :
  preprocess_quiz_submission raw_data = Ok q ->
  has_required_fields raw_data = true.
Proof.
  unfold preprocess_quiz_submission, has_required_fields. intros H.
  destruct (forallb _ required_fields) eqn:E; [reflexivity|].
  apply validate_required_missing in E as (? & ? & ? & _ & _ & _ & E).
  rewrite E in H. discriminate.
Qed.

Lemma dict_item_get k raw_data v :
  dict_item k raw_data = Ok v <-> dict_get String.eqb k raw_data = Some v.
Proof.
  unfold dict_item. destruct (dict_get String.eqb k raw_data); split; congruence.
Qed.

(** What a successful normalization has read and stored. *)
Lemma preprocess_ok_inv raw_data q :
  preprocess_quiz_submission raw_data = Ok q ->
  exists raw_at raw_score,
    has_required_fields raw_data = true /\
    dict_get String.eqb "submitted_at" raw_data = Some raw_at /\
    parse_submitted_at raw_at = Ok (submitted_at q) /\
    extract_topic raw_data = Ok (topic q) /\
    dict_get String.eqb "id" raw_data = Some (id q) /\
    dict_get String.eqb "quiz_id" raw_data = Some (quiz_id q) /\
    dict_get String.eqb "user_id" raw_data = Some (user_id q) /\
    dict_get String.eqb "score" raw_data = Some raw_score /\
    py_float raw_score = Ok (score q) /\
    dict_get String.eqb "accuracy" raw_data = Some (accuracy q) /\
    dict_get String.eqb "final_score" raw_data = Some (final_score q) /\
    speed q = get_default "speed" (VStr "0") raw_data /\
    correct_answers q = get_default "correct_answers" (VInt 0) raw_data /\
    incorrect_answers q = get_default "incorrect_answers" (VInt 0) raw_data /\
    total_questions q = get_default "total_questions" (VInt 0) raw_data /\
    response_map q = get_default "response_map" (VDict []) raw_data.
Proof.
  intros H. pose proof (preprocess_validates _ _ H) as Hreq.
  unfold preprocess_quiz_submission in H.
  repeat match type of H with
         | bind _ _ = Ok _ =>
             let x := fresh "x" in let Hx := fresh "Hx" in
             apply bind_ok in H as (x & Hx & H)
         end.
  injection H as <-. simpl.
  repeat match goal with
         | Hx : dict_item _ _ = Ok _ |- _ => apply dict_item_get in Hx
         end.
  eauto 20.
Qed.
End Normalizer.

Section NormalizerClaims.
Context {B : Builtins}.
Implicit Types (raw_data : list (string * value)).

(** C6.  A raw submission that lacks at least one of the seven required
    fields is rejected with a [ValueError] (the program's validation
    error) whose message names a field that is missing. *)
Theorem missing_required_field_is_named raw_data :
  has_required_fields raw_data = false ->
  exists field,
    In field required_fields /\
    dict_mem String.eqb field raw_data = false /\
    preprocess_quiz_submission raw_data
    = Raise (ValueError ("Missing required field: " ++ field)).
Proof.
  intros H. apply validate_required_missing in H
    as (before & field & after & Hfields & _ & Hmissing & Hraise).
  exists field. repeat split; [|assumption|].
  - rewrite Hfields. apply in_or_app. right. now left.
  - unfold preprocess_quiz_submission. now rewrite Hraise.
Qed.

Lemma has_required_fields_set raw_data k v :
  has_required_fields raw_data = true ->
  has_required_fields (dict_set String.eqb k v raw_data) = true.
Proof.
  unfold has_required_fields. rewrite !forallb_forall. intros H f Hf.
  rewrite dict_mem_set, (H f Hf). apply orb_true_r.
Qed.

(** Normalization does not look at the accuracy: whatever value a
    submission carries under that key is stored. *)
Lemma preprocess_any_accuracy raw_data q v :
  preprocess_quiz_submission raw_data = Ok q ->
  preprocess_quiz_submission (dict_set String.eqb "accuracy" v raw_data)
  = Ok (with_accuracy v q).
Proof.
  intros H. apply preprocess_ok_inv in H
    as (raw_at & raw_score & Hreq & Hat & Hparse & Htopic & Hid & Hquiz & Huser
        & Hscore & Hfloat & Hacc & Hfinal & Hs & Hc & Hi & Ht & Hr).
  unfold preprocess_quiz_submission.
  rewrite (validate_required_ok _ _ (has_required_fields_set _ "accuracy" v Hreq)).
  unfold dict_item, extract_topic, get_default in *.
  rewrite !dict_get_set. simpl.
  rewrite Hat. simpl. rewrite Hparse. simpl.
  rewrite Htopic. simpl.
  rewrite Hid, Hquiz, Huser, Hscore. simpl. rewrite Hfloat. simpl.
  rewrite Hfinal. simpl.
  unfold with_accuracy. now rewrite Hs, Hc, Hi, Ht, Hr.
Qed.

(** C2, as the program has it.  When a raw submission is accepted, the
    accuracy field of the result is the raw accuracy value itself, not
    a fraction computed from it; and the same submission carrying any
    other accuracy value, numeric or not, with or without a percent
    sign, is accepted as well and that value is stored. *)
Theorem accuracy_is_stored_as_received raw_data q :
  preprocess_quiz_submission raw_data = Ok q ->
  dict_get String.eqb "accuracy" raw_data = Some (accuracy q) /\
  forall v, exists q',
    preprocess_quiz_submission (dict_set String.eqb "accuracy" v raw_data) = Ok q' /\
    accuracy q' = v.
Proof.
  intros H. split.
  - apply preprocess_ok_inv in H. destruct H as (? & ? & H). tauto.
  - intros v. exists (with_accuracy v q). split; [|reflexivity].
    now apply preprocess_any_accuracy.
Qed.

(** ** The batch normalizer *)

Lemma process_loop_skips processed_data batch :
  only_value_errors batch = true ->
  process_loop processed_data batch = Ok (processed_data ++ normalized batch).
Proof.
  revert processed_data.
  induction batch as [|r rest IH]; intros acc H; simpl in *.
  - now rewrite app_nil_r.
  - apply andb_prop in H as [Hr Hrest].
    destruct (preprocess_quiz_submission r) as [q|e].
    + rewrite (IH _ Hrest), <- app_assoc. reflexivity.
    + rewrite Hr. now apply IH.
Qed.

(** The first record to fail with another exception ends the loop with
    that exception, whatever was processed before it. *)
Lemma process_loop_aborts processed_data before r after e :
  only_value_errors before = true ->
  preprocess_quiz_submission r = Raise e ->
  is_ValueError e = false ->
  process_loop processed_data (before ++ r :: after) = Raise e.
Proof.
  revert processed_data.
  induction before as [|b before IH]; intros acc Hb Hr He; simpl in *.
  - now rewrite Hr, He.
  - apply andb_prop in Hb as [Hb Hrest].
    destruct (preprocess_quiz_submission b) as [q|e'].
    + now apply IH.
    + rewrite Hb. now apply IH.
Qed.

Lemma normalized_failures batch :
  (List.length (normalized batch) + failures batch)%nat = List.length batch.
Proof.
  unfold failures.
  induction batch as [|r rest IH]; simpl; [reflexivity|].
  destruct (preprocess_quiz_submission r); simpl; lia.
Qed.

(** C7, as the program has it.  When every record of a batch either
    normalizes or fails with a [ValueError], the batch normalizer
    returns exactly the records that normalize, in the order of the
    batch, one for each record that does not fail. *)
Theorem batch_skips_value_errors (batch : list (list (string * value))) :
  only_value_errors batch = true ->
  process_historical_data batch = Ok (normalized batch) /\
  (List.length (normalized batch) + failures batch)%nat = List.length batch.
Proof.
  intros H. split.
  - unfold process_historical_data. now rewrite process_loop_skips.
  - apply normalized_failures.
Qed.

(** A record that has every required field and a timestamp that is not
    a string fails with an [AttributeError]. *)
Lemma timestamp_not_a_string raw_data v :
  has_required_fields raw_data = true ->
  dict_get String.eqb "submitted_at" raw_data = Some v ->
  is_str v = false ->
  preprocess_quiz_submission raw_data = Raise (no_attribute v "replace").
Proof.
  intros Hreq Hat Hv. unfold preprocess_quiz_submission.
  rewrite (validate_required_ok _ _ Hreq). unfold dict_item. rewrite Hat. simpl.
  destruct v; try reflexivity; discriminate.
Qed.
End NormalizerClaims.

(** ** The insight synthesizer *)

Section Synthesizer.
Context {B : Builtins}.

(** The helper of src/utils/helpers.py draws the three bands where the
    specification puts them: at least 0.75 is "Good", at most 0.4 is
    "Needs Improvement", anything else is "Average". *)
Lemma categorize_performance_bands (accuracy : float) :
  categorize_performance accuracy = status_label accuracy.
Proof. reflexivity. Qed.

Lemma dict_set_not_empty {V} (k : string) (v : V) d :
  dict_set String.eqb k v d <> [].
Proof. destruct d as [|[k0 v0] d]; simpl; [|destruct (String.eqb k0 k)]; discriminate. Qed.

Lemma topic_stats_step_not_empty topic_stats quiz :
  topic_stats_step topic_stats quiz <> [].
Proof.
  unfold topic_stats_step.
  destruct (dict_mem String.eqb (pq_topic quiz) topic_stats) eqn:Hmem.
  - unfold dict_mem in Hmem.
    destruct (dict_get String.eqb (pq_topic quiz) topic_stats) as [[a s]|];
      [apply dict_set_not_empty | discriminate].
  - destruct (dict_get _ _ _) as [[a s]|]; apply dict_set_not_empty.
Qed.

Lemma topic_stats_not_empty processed_quizzes topic_stats :
  processed_quizzes <> [] \/ topic_stats <> [] ->
  fold_left topic_stats_step processed_quizzes topic_stats <> [].
Proof.
  revert topic_stats.
  induction processed_quizzes as [|q l IH]; intros d H; simpl.
  - destruct H as [H|H]; [now elim H | assumption].
  - apply IH. right. apply topic_stats_step_not_empty.
Qed.

(** The first topic to receive an insight ends the loop: the status is
    asked from a method the class does not have. *)
Lemma topic_insights_raise topic_stats :
  topic_stats <> [] ->
  for_each topic_insights_step [] topic_stats
  = Raise (AttributeError
             "'InsightGenerator' object has no attribute '_categorize_performance'").
Proof.
  destruct topic_stats as [|[topic [accuracies scores]] rest]; [now intros H|].
  reflexivity.
Qed.

(** As soon as one submission of the history is processed, the report
    is the error report of the missing method. *)
Lemma report_of_processed_history now quiz_history :
  snd (fold_left process_quiz quiz_history ([], [])) <> [] ->
  generate_comprehensive_report now quiz_history = missing_method_report now.
Proof.
  intros H. unfold generate_comprehensive_report.
  destruct quiz_history as [|q0 h]; [now elim H|].
  unfold build_report.
  destruct (fold_left process_quiz (q0 :: h) ([], [])) as [accuracies processed].
  simpl in H. rewrite topic_insights_raise; [reflexivity|].
  apply topic_stats_not_empty. now left.
Qed.

(** No report ever carries a topic insight, hence no status label:
    the key is absent or its dictionary is empty. *)
Lemma report_without_insights now quiz_history :
  topic_insights_of (generate_comprehensive_report now quiz_history) = None \/
  topic_insights_of (generate_comprehensive_report now quiz_history) = Some (VDict []).
Proof.
  unfold generate_comprehensive_report.
  destruct quiz_history as [|q0 h]; [now left|].
  unfold build_report.
  destruct (fold_left process_quiz (q0 :: h) ([], [])) as [accuracies processed].
  destruct (fold_left topic_stats_step processed []) as [|e rest] eqn:Hstats.
  - right. reflexivity.
  - left. rewrite topic_insights_raise; [reflexivity | discriminate].
Qed.

(** C5.  On the empty history the aggregator raises (its
    [ValueError "Quiz history is empty"] is the program's empty-history
    error), while the synthesizer returns a report made of an error
    marker and a generation timestamp and nothing else. *)
Theorem empty_history_policies :
  analyze_student_performance [] = Raise (ValueError "Quiz history is empty") /\
  forall now,
    generate_comprehensive_report now []
    = VDict [("error", VStr "No quiz history available"); ("generated_at", VStr now)].
Proof. split; reflexivity. Qed.
End Synthesizer.

(** ** The rank estimator *)

Section Estimator.
Context {B : Builtins}.

(** C8.  An untrained estimator answers the placeholder rank 5000 for
    every performance, and never raises. *)
Theorem untrained_rank_is_constant (self : RankPredictor) (performance : StudentPerformance) :
  is_trained self = false ->
  predict_rank self performance = Ok 5000%Z.
Proof. intros H. unfold predict_rank. now rewrite H. Qed.
End Estimator.

(** ** The performance aggregator *)


Section Grouping.
Context {B : Builtins}.
Implicit Types (k t : value) (ks : list value) (p : list QuizSubmission)
  (q : QuizSubmission).

(** Topics are compared as strings, letter for letter. *)
Lemma key_eqb_str (a b : string) : key_eqb (VStr a) (VStr b) = String.eqb a b.
Proof. reflexivity. Qed.

Lemma key_eqb_eq k t :
  is_str k = true -> is_str t = true -> key_eqb k t = true <-> k = t.
Proof.
  destruct k; try discriminate. destruct t; try discriminate. intros _ _.
  rewrite key_eqb_str, String.eqb_eq. split; congruence.
Qed.

Lemma key_eqb_refl k : is_str k = true -> key_eqb k k = true.
Proof. intros H. now apply key_eqb_eq. Qed.

Lemma key_eqb_sym k t :
  is_str k = true -> is_str t = true -> key_eqb k t = key_eqb t k.
Proof.
  destruct k; try discriminate. destruct t; try discriminate. intros _ _.
  rewrite !key_eqb_str. apply String.eqb_sym.
Qed.

Lemma is_str_hashable k : is_str k = true -> hashable k = true.
Proof. destruct k; simpl; congruence. Qed.

Lemma well_formed_topic q : well_formed q = true -> is_str (topic q) = true.
Proof. unfold well_formed. intros H. now apply andb_prop in H as [H _]. Qed.

Lemma well_formed_fraction q :
  well_formed q = true -> accuracy_fraction q = Ok (fraction q).
Proof.
  unfold well_formed, accuracy_fraction, fraction. intros H.
  apply andb_prop in H as [_ H].
  destruct (accuracy q); try discriminate. simpl.
  destruct (float_of_str (strip "%" s)); [reflexivity | discriminate].
Qed.

(** *** Dictionaries whose keys are distinct strings *)


Lemma existsb_key_in k ks :
  is_str k = true -> str_keys ks ->
  existsb (key_eqb k) ks = true <-> In k ks.
Proof.
  intros Hk Hks. rewrite existsb_exists. split.
  - intros (t & Hin & Heq). rewrite Forall_forall in Hks.
    apply key_eqb_eq in Heq; auto. now subst.
  - intros Hin. exists k. split; [assumption | now apply key_eqb_refl].
Qed.

Lemma dict_get_tabulated {V} (f : value -> V) k ks :
  is_str k = true -> str_keys ks ->
  dict_get key_eqb k (map (fun t => (t, f t)) ks)
  = if existsb (key_eqb k) ks then Some (f k) else None.
Proof.
  intros Hk Hks. induction Hks as [|t ks Ht Hks IH]; simpl; [reflexivity|].
  rewrite (key_eqb_sym k t) by assumption.
  destruct (key_eqb t k) eqn:E; simpl; [|assumption].
  apply key_eqb_eq in E; auto. now subst.
Qed.

Lemma dict_set_tabulated_in {V} (f : value -> V) k (v : V) ks :
  is_str k = true -> str_keys ks -> NoDup ks -> In k ks ->
  dict_set key_eqb k v (map (fun t => (t, f t)) ks)
  = map (fun t => (t, if key_eqb t k then v else f t)) ks.
Proof.
  intros Hk Hks Hnd. induction Hks as [|t ks Ht Hks IH]; simpl; [now intros []|].
  inversion Hnd as [|? ? Hnotin Hnd']; subst.
  destruct (key_eqb t k) eqn:E; simpl.
  - intros _. apply key_eqb_eq in E; auto. subst t. f_equal.
    apply map_ext_in. intros t Hin.
    destruct (key_eqb t k) eqn:E'; [|reflexivity].
    rewrite Forall_forall in Hks.
    apply key_eqb_eq in E'; auto. now subst.
  - intros [->|Hin]; [now rewrite key_eqb_refl in E|].
    f_equal. auto.
Qed.

Lemma dict_set_tabulated_new {V} (f : value -> V) k (v : V) ks :
  is_str k = true -> str_keys ks -> existsb (key_eqb k) ks = false ->
  dict_set key_eqb k v (map (fun t => (t, f t)) ks)
  = map (fun t => (t, f t)) ks ++ [(k, v)].
Proof.
  intros Hk Hks. induction Hks as [|t ks Ht Hks IH]; simpl; [reflexivity|].
  rewrite (key_eqb_sym k t) by assumption.
  destruct (key_eqb t k); simpl; [discriminate|].
  intros H. now rewrite IH.
Qed.

(** *** The topics and the submissions of a history *)

Lemma topics_of_snoc p q :
  topics_of (p ++ [q])
  = if existsb (key_eqb (topic q)) (topics_of p) then topics_of p
    else topics_of p ++ [topic q].
Proof. unfold topics_of. now rewrite fold_left_app. Qed.

Lemma submissions_of_snoc t p q :
  submissions_of t (p ++ [q])
  = submissions_of t p ++ (if key_eqb (topic q) t then [q] else []).
Proof. unfold submissions_of. rewrite filter_app. simpl. now destruct (key_eqb _ _). Qed.

Lemma accumulated_snoc {V} (init : V) op t p q :
  accumulated init op t (p ++ [q])
  = if key_eqb (topic q) t then op (accumulated init op t p) (fraction q)
    else accumulated init op t p.
Proof.
  unfold accumulated. rewrite submissions_of_snoc.
  destruct (key_eqb (topic q) t).
  - now rewrite map_app, fold_left_app.
  - now rewrite app_nil_r.
Qed.


Lemma all_well_formed_snoc p q :
  all_well_formed (p ++ [q]) <-> all_well_formed p /\ well_formed q = true.
Proof.
  rewrite Forall_app. split.
  - intros [Hp Hq]. split; [assumption | now inversion Hq].
  - intros [Hp Hq]. split; [assumption | now constructor].
Qed.

Lemma topics_of_spec p :
  all_well_formed p ->
  str_keys (topics_of p) /\ NoDup (topics_of p) /\
  forall t, In t (topics_of p) <-> exists q, In q p /\ topic q = t.
Proof.
  induction p as [|q p IH] using rev_ind.
  - intros _. repeat split; try constructor.
    + intros [].
    + intros (q & [] & _).
  - intros H. apply all_well_formed_snoc in H as [Hp Hq].
    destruct (IH Hp) as (Hstr & Hnd & Hin).
    pose proof (well_formed_topic _ Hq) as Hk.
    rewrite topics_of_snoc.
    destruct (existsb (key_eqb (topic q)) (topics_of p)) eqn:E.
    + repeat split; try assumption.
      * intros H. apply Hin in H as (q' & Hq' & <-). exists q'. split; [|reflexivity].
        apply in_or_app. now left.
      * intros (q' & Hq' & <-). apply in_app_or in Hq' as [Hq'|[<-|[]]].
        -- apply Hin. eauto.
        -- now apply existsb_key_in in E.
    + assert (Hnot : ~ In (topic q) (topics_of p)).
      { intros Hc. apply existsb_key_in in Hc; auto. congruence. }
      repeat split.
      * apply Forall_app. split; [assumption | now constructor].
      * apply NoDup_app; [assumption | repeat constructor; intros [] | ].
        now intros a Ha [<-|[]].
      * intros H. apply in_app_or in H as [H|[<-|[]]].
        -- apply Hin in H as (q' & Hq' & <-). exists q'. split; [|reflexivity].
           apply in_or_app. now left.
        -- exists q. split; [|reflexivity]. apply in_or_app. right. now left.
      * intros (q' & Hq' & <-). apply in_or_app.
        apply in_app_or in Hq' as [Hq'|[<-|[]]].
        -- left. apply Hin. eauto.
        -- right. now left.
Qed.

Lemma submissions_of_unseen t p :
  all_well_formed p -> is_str t = true ->
  existsb (key_eqb t) (topics_of p) = false ->
  submissions_of t p = [].
Proof.
  intros Hp Ht E. destruct (topics_of_spec p Hp) as (Hstr & _ & Hin).
  unfold submissions_of.
  destruct (filter _ p) as [|q l] eqn:F; [reflexivity|].
  assert (Hq : In q (filter (fun q => key_eqb (topic q) t) p)) by (rewrite F; now left).
  apply filter_In in Hq as [Hq Heq].
  rewrite Forall_forall in Hp.
  apply key_eqb_eq in Heq; auto using well_formed_topic.
  assert (Hc : In t (topics_of p)) by (apply Hin; eauto).
  apply existsb_key_in in Hc; auto. congruence.
Qed.

Lemma submissions_of_seen t p :
  all_well_formed p -> In t (topics_of p) -> submissions_of t p <> [].
Proof.
  intros Hp Hin. destruct (topics_of_spec p Hp) as (Hstr & _ & Hspec).
  apply Hspec in Hin as (q & Hq & <-).
  rewrite Forall_forall in Hp.
  assert (H : In q (submissions_of (topic q) p)).
  { apply filter_In. split; [assumption|].
    apply key_eqb_refl, well_formed_topic. auto. }
  intros E. now rewrite E in H.
Qed.
End Grouping.

Section Aggregator.
Context {B : Builtins}.
Implicit Types (k t : value) (p h : list QuizSubmission) (q : QuizSubmission).

(** One turn of a grouping loop: the key is looked for, entered with
    the initial value when it is new, and its entry is updated with the
    accuracy of the submission. *)
Lemma grouped_step {V} (init : V) op p q :
  all_well_formed p -> well_formed q = true ->
  let d := grouped init op p in
  let seen := existsb (key_eqb (topic q)) (topics_of p) in
  let d1 := if seen then d else dict_set key_eqb (topic q) init d in
  key_in (topic q) d = Ok seen /\
  key_item (topic q) d1 = Ok (accumulated init op (topic q) p) /\
  dict_set key_eqb (topic q) (op (accumulated init op (topic q) p) (fraction q)) d1
  = grouped init op (p ++ [q]).
Proof.
  intros Hp Hq. pose proof (well_formed_topic _ Hq) as Hk.
  destruct (topics_of_spec p Hp) as (Hstr & Hnd & _).
  cbv zeta. unfold key_in, key_item, dict_mem, grouped.
  rewrite (is_str_hashable _ Hk), topics_of_snoc.
  rewrite (dict_get_tabulated _ _ _ Hk Hstr).
  destruct (existsb (key_eqb (topic q)) (topics_of p)) eqn:E.
  - rewrite (dict_get_tabulated _ _ _ Hk Hstr), E.
    repeat split.
    rewrite dict_set_tabulated_in; auto; [|now apply existsb_key_in].
    apply map_ext_in. intros t Ht. f_equal. rewrite accumulated_snoc.
    pose proof (proj1 (Forall_forall _ _) Hstr) as Hstr'.
    rewrite (key_eqb_sym (topic q) t) by auto.
    destruct (key_eqb t (topic q)) eqn:E'; [|reflexivity].
    apply key_eqb_eq in E'; auto. now subst.
  - rewrite (dict_set_tabulated_new _ _ _ _ Hk Hstr E).
    assert (Hget : forall v : V,
               dict_get key_eqb (topic q)
                 (map (fun t => (t, accumulated init op t p)) (topics_of p) ++ [(topic q, v)])
               = Some v).
    { intros v.
      change (map (fun t => (t, accumulated init op t p)) (topics_of p) ++ [(topic q, v)])
        with (map (fun t => (t, accumulated init op t p)) (topics_of p)
              ++ map (fun t => (t, v)) [topic q]).
      clear Hnd. induction Hstr as [|t ks Ht Hks IH]; simpl.
      - now rewrite key_eqb_refl.
      - simpl in E. apply orb_false_elim in E as [E1 E2].
        rewrite (key_eqb_sym t (topic q)), E1 by assumption. auto. }
    rewrite Hget. repeat split.
    + unfold accumulated. now rewrite submissions_of_unseen.
    + assert (Hset : forall v w : V,
                 dict_set key_eqb (topic q) w
                   (map (fun t => (t, accumulated init op t p)) (topics_of p)
                    ++ [(topic q, v)])
                 = map (fun t => (t, accumulated init op t p)) (topics_of p)
                   ++ [(topic q, w)]).
      { intros v w. clear Hnd Hget.
        induction Hstr as [|t ks Ht Hks IH]; simpl.
        - now rewrite key_eqb_refl.
        - simpl in E. apply orb_false_elim in E as [E1 E2].
          rewrite (key_eqb_sym t (topic q)), E1 by assumption. now rewrite IH. }
      rewrite Hset, map_app. simpl. f_equal.
      * apply map_ext_in. intros t Ht. f_equal. rewrite accumulated_snoc.
        destruct (key_eqb (topic q) t) eqn:E'; [|reflexivity].
        exfalso. pose proof (proj1 (Forall_forall _ _) Hstr) as Hstr'.
        apply key_eqb_eq in E'; auto. subst t.
        apply existsb_key_in in Ht; auto. congruence.
      * now rewrite accumulated_snoc, key_eqb_refl.
Qed.

Lemma topic_performance_step_grouped p q :
  all_well_formed p -> well_formed q = true ->
  topic_performance_step (grouped zero PrimFloat.add p, grouped 0%Z add_one p) q
  = Ok (grouped zero PrimFloat.add (p ++ [q]), grouped 0%Z add_one (p ++ [q])).
Proof.
  intros Hp Hq.
  destruct (grouped_step zero PrimFloat.add p q Hp Hq) as (Hin & Hitem & Hset).
  destruct (grouped_step 0%Z add_one p q Hp Hq) as (_ & Hitem' & Hset').
  cbv zeta in *. unfold topic_performance_step.
  rewrite Hin. cbn [bind]. rewrite Hitem. cbn [bind].
  rewrite (well_formed_fraction _ Hq). cbn [bind].
  rewrite Hitem'. cbn [bind]. rewrite Hset. unfold add_one in Hset' at 1.
  now rewrite Hset'.
Qed.

Lemma topic_performance_loop p h :
  all_well_formed p -> all_well_formed h ->
  for_each topic_performance_step
    (grouped zero PrimFloat.add p, grouped 0%Z add_one p) h
  = Ok (grouped zero PrimFloat.add (p ++ h), grouped 0%Z add_one (p ++ h)).
Proof.
  intros Hp Hh. revert p Hp.
  induction Hh as [|q h Hq Hh IH]; intros p Hp; cbn [for_each].
  - now rewrite app_nil_r.
  - rewrite topic_performance_step_grouped by assumption. cbn [bind].
    rewrite IH.
    + now rewrite <- app_assoc.
    + apply Forall_app. split; [assumption | now constructor].
Qed.

Lemma counted (l : list float) (n : Z) :
  fold_left add_one l n = (n + Z.of_nat (List.length l))%Z.
Proof.
  revert n. induction l as [|x l IH]; intros n; simpl fold_left.
  - simpl. lia.
  - rewrite IH. unfold add_one. simpl List.length. lia.
Qed.

Lemma collected (l acc : list float) : fold_left snoc l acc = acc ++ l.
Proof.
  revert acc. induction l as [|x l IH]; intros acc; simpl.
  - now rewrite app_nil_r.
  - rewrite IH. unfold snoc. now rewrite <- app_assoc.
Qed.

Lemma quotients (f : value -> float) (c : value -> Z) ks :
  Forall (fun t => c t <> 0%Z) ks ->
  map_result
    (fun '(topic, (score, count)) => q <- truediv score count ;; Ok (topic, q))
    (combine (dict_keys (map (fun t => (t, f t)) ks))
       (combine (dict_values (map (fun t => (t, f t)) ks))
                (dict_values (map (fun t => (t, c t)) ks))))
  = Ok (map (fun t => (t, (f t / float_of_Z (c t))%float)) ks).
Proof.
  induction 1 as [|t ks Ht Hks IH]; simpl; [reflexivity|].
  unfold truediv at 1. apply Z.eqb_neq in Ht. rewrite Ht. cbn [bind].
  now rewrite IH.
Qed.

(** On a well-formed history the per-topic loop cannot raise, and gives
    each topic, in order of first appearance, its mean accuracy. *)
Lemma analyze_topic_performance_means h :
  all_well_formed h ->
  analyze_topic_performance h
  = Ok (map (fun t => (t, mean_accuracy t h)) (topics_of h)).
Proof.
  intros Hh. unfold analyze_topic_performance.
  change (@nil (value * float)) with (grouped zero PrimFloat.add []).
  change (@nil (value * Z)) with (grouped 0%Z add_one []).
  rewrite topic_performance_loop by (constructor || assumption).
  cbn [bind app]. unfold grouped at 1 2 3.
  rewrite quotients.
  - f_equal. apply map_ext. intros t. unfold mean_accuracy, accumulated, float_of_nat.
    now rewrite counted, length_map.
  - apply Forall_forall. intros t Ht. unfold accumulated.
    rewrite counted, length_map.
    pose proof (submissions_of_seen t h Hh Ht) as Hne.
    destruct (submissions_of t h); [now elim Hne | simpl; lia].
Qed.
End Aggregator.

(** ** Chronological order *)


Section Chronology.
Context {B : Builtins}.
Implicit Types (x y q : QuizSubmission) (l h : list QuizSubmission).

Lemma comparable_uniform h : comparable h = true -> exists b, uniform b h.
Proof.
  unfold comparable. intros H. apply orb_prop in H as [H|H].
  - exists false. apply Forall_forall. intros q Hq.
    rewrite forallb_forall in H. specialize (H q Hq).
    now destruct (aware (submitted_at q)).
  - exists true. apply Forall_forall. intros q Hq.
    rewrite forallb_forall in H. now apply H.
Qed.

Lemma uniform_comparable b h : uniform b h -> comparable h = true.
Proof.
  intros H. unfold comparable. apply orb_true_iff.
  destruct b; [right | left]; apply forallb_forall; intros q Hq;
    rewrite Forall_forall in H; now rewrite (H q Hq).
Qed.

(** Datetimes of one kind compare by their instants. *)
Lemma datetime_lt_instant (a b : datetime) :
  aware a = aware b -> datetime_lt a b = Ok (instant a <? instant b)%Z.
Proof.
  unfold aware, datetime_lt, instant.
  destruct (utcoffset a), (utcoffset b); reflexivity || discriminate.
Qed.

Lemma insert_sorted_place b x l :
  aware (submitted_at x) = b -> uniform b l ->
  insert_sorted submitted_at x l = Ok (place x l).
Proof.
  intros Hx Hl. induction Hl as [|y l Hy Hl IH]; simpl; [reflexivity|].
  rewrite datetime_lt_instant by congruence. cbn [bind].
  destruct (instant (submitted_at y) <? instant (submitted_at x))%Z; [|reflexivity].
  now rewrite IH.
Qed.

Lemma place_permutation x l : Permutation (place x l) (x :: l).
Proof.
  induction l as [|y l IH]; simpl; [reflexivity|].
  destruct (instant (submitted_at y) <? instant (submitted_at x))%Z; [|reflexivity].
  rewrite IH. apply perm_swap.
Qed.

Lemma chronological_permutation l : Permutation (chronological l) l.
Proof.
  induction l as [|x l IH]; simpl; [reflexivity|].
  rewrite place_permutation. now constructor.
Qed.

(** On comparable timestamps [sorted] cannot raise, and orders the
    history along the time line. *)
Lemma sorted_chronological b l :
  uniform b l -> sorted submitted_at l = Ok (chronological l).
Proof.
  induction 1 as [|x l Hx Hl IH]; simpl; [reflexivity|].
  rewrite IH. cbn [bind]. apply (insert_sorted_place b); [assumption|].
  apply Forall_forall. intros q Hq.
  rewrite Forall_forall in Hl. apply Hl.
  now apply (Permutation_in _ (chronological_permutation l)).
Qed.

Lemma place_sorted x l :
  StronglySorted not_later l -> StronglySorted not_later (place x l).
Proof.
  induction 1 as [|y l Hl IH Hy]; simpl.
  - repeat constructor.
  - destruct (instant (submitted_at y) <? instant (submitted_at x))%Z eqn:E.
    + apply Z.ltb_lt in E. constructor; [assumption|].
      apply Forall_forall. intros q Hq.
      apply (Permutation_in _ (place_permutation x l)) in Hq as [<-|Hq].
      * unfold not_later. lia.
      * rewrite Forall_forall in Hy. auto.
    + apply Z.ltb_ge in E. constructor; [now constructor|].
      constructor; [assumption|].
      apply Forall_forall. intros q Hq. rewrite Forall_forall in Hy.
      specialize (Hy q Hq). unfold not_later in *. lia.
Qed.

Lemma chronological_sorted l : StronglySorted not_later (chronological l).
Proof. induction l; simpl; [constructor | now apply place_sorted]. Qed.

(** Placing a submission never moves it past one taken at the same
    instant. *)
Lemma taken_at_place k x l : taken_at k (place x l) = taken_at k (x :: l).
Proof.
  unfold taken_at. induction l as [|y l IH]; [reflexivity|].
  cbn [place].
  destruct (instant (submitted_at y) <? instant (submitted_at x))%Z eqn:E;
    [|reflexivity].
  apply Z.ltb_lt in E. cbn [filter] in *. rewrite IH.
  destruct (instant (submitted_at x) =? k)%Z eqn:Ex; [|reflexivity].
  apply Z.eqb_eq in Ex.
  assert (Ey : (instant (submitted_at y) =? k)%Z = false) by (apply Z.eqb_neq; lia).
  now rewrite Ey.
Qed.

Lemma taken_at_chronological k l : taken_at k (chronological l) = taken_at k l.
Proof.
  induction l as [|x l IH]; [reflexivity|].
  cbn [chronological]. rewrite taken_at_place.
  unfold taken_at in *. cbn [filter]. now rewrite IH.
Qed.

Lemma chronological_stably_sorted l : stably_sorted l (chronological l).
Proof.
  repeat split.
  - apply chronological_permutation.
  - apply chronological_sorted.
  - intros k. apply taken_at_chronological.
Qed.

Lemma filter_permutation (f : QuizSubmission -> bool) l l' :
  Permutation l l' -> Permutation (filter f l) (filter f l').
Proof.
  induction 1 as [|x l l' H IH|x y l|l l' l'' H1 IH1 H2 IH2]; simpl.
  - constructor.
  - destruct (f x); [now constructor | assumption].
  - destruct (f x), (f y); try reflexivity. apply perm_swap.
  - now transitivity (filter f l').
Qed.

Lemma filter_sorted (f : QuizSubmission -> bool) l :
  StronglySorted not_later l -> StronglySorted not_later (filter f l).
Proof.
  induction 1 as [|x l Hl IH Hx]; simpl; [constructor|].
  destruct (f x); [|assumption].
  constructor; [assumption|].
  apply Forall_forall. intros q Hq. apply filter_In in Hq as [Hq _].
  rewrite Forall_forall in Hx. auto.
Qed.

Lemma filter_swap (f g : QuizSubmission -> bool) l :
  filter f (filter g l) = filter g (filter f l).
Proof.
  induction l as [|x l IH]; simpl; [reflexivity|].
  destruct (f x) eqn:Ef, (g x) eqn:Eg; simpl; rewrite ?Ef, ?Eg, IH; reflexivity.
Qed.

(** The submissions of one topic, read off a stably sorted history, are
    that topic's submissions stably sorted. *)
Lemma stably_sorted_filter (f : QuizSubmission -> bool) l s :
  stably_sorted l s -> stably_sorted (filter f l) (filter f s).
Proof.
  intros (Hperm & Hsorted & Hties). repeat split.
  - now apply filter_permutation.
  - now apply filter_sorted.
  - intros k. unfold taken_at in *.
    now rewrite filter_swap, Hties, filter_swap.
Qed.
End Chronology.

Section AggregatorClaims.
Context {B : Builtins}.
Implicit Types (k t : value) (p h : list QuizSubmission) (q : QuizSubmission).

Lemma improvement_trends_step_grouped p q :
  all_well_formed p -> well_formed q = true ->
  improvement_trends_step (grouped [] snoc p) q = Ok (grouped [] snoc (p ++ [q])).
Proof.
  intros Hp Hq.
  destruct (grouped_step [] snoc p q Hp Hq) as (Hin & Hitem & Hset).
  cbv zeta in *. unfold improvement_trends_step.
  rewrite Hin. cbn [bind]. rewrite Hitem. cbn [bind].
  rewrite (well_formed_fraction _ Hq). cbn [bind].
  unfold snoc in Hset at 1. now rewrite Hset.
Qed.

Lemma improvement_trends_loop p h :
  all_well_formed p -> all_well_formed h ->
  for_each improvement_trends_step (grouped [] snoc p) h
  = Ok (grouped [] snoc (p ++ h)).
Proof.
  intros Hp Hh. revert p Hp.
  induction Hh as [|q h Hq Hh IH]; intros p Hp; cbn [for_each].
  - now rewrite app_nil_r.
  - rewrite improvement_trends_step_grouped by assumption. cbn [bind].
    rewrite IH.
    + now rewrite <- app_assoc.
    + apply Forall_app. split; [assumption | now constructor].
Qed.

(** On a well-formed history with comparable timestamps the trend of a
    topic lists the accuracies of its submissions along the time line. *)
Lemma calculate_improvement_trends_chronological b h :
  all_well_formed h -> uniform b h ->
  calculate_improvement_trends h
  = Ok (map (fun t => (t, map fraction (submissions_of t (chronological h))))
            (topics_of (chronological h))).
Proof.
  intros Hh Hu. unfold calculate_improvement_trends.
  rewrite (sorted_chronological b) by assumption. cbn [bind].
  change (@nil (value * list float)) with (grouped [] snoc []).
  rewrite improvement_trends_loop.
  - cbn [app]. unfold grouped. f_equal. apply map_ext. intros t.
    unfold accumulated. now rewrite collected.
  - constructor.
  - apply (Permutation_Forall (Permutation_sym (chronological_permutation h)) Hh).
Qed.

Lemma weak_areas_filter (f : value -> float) ks :
  identify_weak_areas (map (fun t => (t, f t)) ks)
  = filter (fun t => (f t <? WEAKNESS_THRESHOLD)%float) ks.
Proof.
  unfold identify_weak_areas. induction ks as [|t ks IH]; simpl; [reflexivity|].
  destruct (f t <? WEAKNESS_THRESHOLD)%float; simpl; now rewrite IH.
Qed.

(** What [analyze_student_performance] returns on a well-formed
    history with comparable timestamps. *)
Lemma analyze_student_performance_ok first h :
  forallb well_formed (first :: h) = true ->
  comparable (first :: h) = true ->
  analyze_student_performance (first :: h)
  = Ok {| perf_user_id := user_id first;
          quiz_history := first :: h;
          topic_wise_accuracy :=
            map (fun t => (t, mean_accuracy t (first :: h))) (topics_of (first :: h));
          weak_areas :=
            filter (fun t => (mean_accuracy t (first :: h) <? 0.6)%float)
                   (topics_of (first :: h));
          improvement_trends :=
            map (fun t => (t, map fraction
                                  (submissions_of t (chronological (first :: h)))))
                (topics_of (chronological (first :: h)));
          predicted_rank := None;
          recommended_colleges := None |}.
Proof.
  intros Hwf Hc.
  assert (Hall : all_well_formed (first :: h))
    by (apply Forall_forall; now apply forallb_forall).
  apply comparable_uniform in Hc as [b Hu].
  unfold analyze_student_performance.
  rewrite (analyze_topic_performance_means _ Hall). cbn [bind].
  rewrite (calculate_improvement_trends_chronological b _ Hall Hu). cbn [bind].
  now rewrite weak_areas_filter.
Qed.

Lemma key_eqb_has_topic q (name : string) : key_eqb (topic q) (VStr name) = has_topic name q.
Proof.
  unfold has_topic. destruct (topic q) as [| | |f| | |]; try reflexivity.
  unfold key_eqb, key_number. now destruct (float_integral f).
Qed.

Lemma mean_accuracy_mean_of (name : string) h : mean_accuracy (VStr name) h = mean_of name h.
Proof.
  unfold mean_accuracy, mean_of, arithmetic_mean, submissions_of.
  rewrite (filter_ext _ (has_topic name) (fun q => key_eqb_has_topic q name)).
  now rewrite length_map.
Qed.

Lemma topic_named h :
  all_well_formed h ->
  forall k, In k (topics_of h) <-> exists name, k = VStr name /\ existsb (has_topic name) h = true.
Proof.
  intros Hall k. destruct (topics_of_spec _ Hall) as (Hstr & _ & Hin). split.
  - intros Hk. pose proof (proj1 (Forall_forall _ _) Hstr k Hk) as Hs.
    destruct k as [| | | |name| |]; try discriminate Hs. exists name. split; [reflexivity|].
    apply Hin in Hk as (q & Hq & Ht). apply existsb_exists. exists q. split; [assumption|].
    unfold has_topic. rewrite Ht. apply String.eqb_refl.
  - intros (name & -> & Ht). apply existsb_exists in Ht as (q & Hq & Ht).
    apply Hin. exists q. split; [assumption|].
    unfold has_topic in Ht. destruct (topic q); try discriminate Ht.
    apply String.eqb_eq in Ht. now subst.
Qed.

(** C3, as the program has it.  On a non-empty history whose
    submissions each have a string topic and an accuracy that reads as a
    number, and whose timestamps are comparable, the aggregator returns
    a performance whose [topic_wise_accuracy] has one entry for each
    topic of the history, topics being the same when they are the same
    string, which gives the sum of the accuracies of the topic's
    submissions divided by their number; its [weak_areas] are exactly
    the topics whose mean is below 0.6. *)
Theorem aggregate_means_and_weak_areas h :
  h <> [] ->
  forallb well_formed h = true ->
  comparable h = true ->
  exists performance,
    analyze_student_performance h = Ok performance /\
    means_and_weak_areas h performance.
Proof.
  intros Hne Hwf Hc. destruct h as [|first h]; [now elim Hne|].
  eexists. split; [now apply analyze_student_performance_ok|].
  set (history := first :: h) in *.
  assert (Hall : all_well_formed history)
    by (apply Forall_forall; now apply forallb_forall).
  destruct (topics_of_spec _ Hall) as (_ & Hnd & _).
  unfold means_and_weak_areas. cbn [topic_wise_accuracy weak_areas]. repeat split.
  - unfold dict_keys. rewrite map_map. cbn [fst]. now rewrite map_id.
  - intros Hin. apply in_map_iff in Hin as (k' & Heq & Hk). injection Heq as -> <-.
    apply (topic_named _ Hall) in Hk as (name & -> & Ht).
    exists name. repeat split; [assumption | apply mean_accuracy_mean_of].
  - intros (name & -> & Ht & ->). rewrite <- mean_accuracy_mean_of.
    apply (in_map (fun t => (t, mean_accuracy t history))).
    apply (topic_named _ Hall). now exists name.
  - intros Hin. apply filter_In in Hin as [Hk Hlow].
    apply (topic_named _ Hall) in Hk as (name & -> & Ht).
    exists name. repeat split; [assumption | now rewrite <- mean_accuracy_mean_of].
  - intros (name & -> & Ht & Hlow). apply filter_In. split.
    + apply (topic_named _ Hall). now exists name.
    + now rewrite mean_accuracy_mean_of.
Qed.

(** C4, as the program has it.  On a non-empty history of well-formed
    submissions with comparable timestamps every topic of
    [topic_wise_accuracy] is a key of [improvement_trends]; its trend
    lists the accuracies of the topic's submissions in ascending order
    of timestamp, submissions with equal timestamps in the order of the
    history; and the trend has one point per submission of the topic, a
    single submission giving a trend of length one. *)
Theorem trends_follow_the_time_line h :
  h <> [] ->
  forallb well_formed h = true ->
  comparable h = true ->
  exists performance,
    analyze_student_performance h = Ok performance /\
    forall t, In t (dict_keys (topic_wise_accuracy performance)) ->
      In t (dict_keys (improvement_trends performance)) /\
      exists l,
        dict_get key_eqb t (improvement_trends performance) = Some (map fraction l) /\
        stably_sorted (submissions_of t h) l /\
        List.length (map fraction l) = List.length (submissions_of t h).
Proof.
  intros Hne Hwf Hc. destruct h as [|first h]; [now elim Hne|].
  eexists. split; [now apply analyze_student_performance_ok|].
  cbn [topic_wise_accuracy improvement_trends].
  set (history := first :: h) in *.
  assert (Hall : all_well_formed history)
    by (apply Forall_forall; now apply forallb_forall).
  assert (Hsorted : all_well_formed (chronological history))
    by apply (Permutation_Forall (Permutation_sym (chronological_permutation _)) Hall).
  destruct (topics_of_spec _ Hall) as (Hstr & _ & Hin).
  destruct (topics_of_spec _ Hsorted) as (Hstr' & _ & Hin').
  unfold dict_keys. rewrite !map_map. cbn [fst]. rewrite !map_id.
  intros t Ht.
  assert (Ht' : In t (topics_of (chronological history))).
  { apply Hin'. apply Hin in Ht as (q & Hq & <-). exists q. split; [|reflexivity].
    now apply (Permutation_in _ (Permutation_sym (chronological_permutation _))). }
  split; [assumption|].
  exists (submissions_of t (chronological history)).
  pose proof (proj1 (Forall_forall _ _) Hstr t Ht) as Hk.
  repeat split.
  - rewrite dict_get_tabulated by assumption.
    apply existsb_key_in in Ht'; auto. now rewrite Ht'.
  - apply filter_permutation, chronological_permutation.
  - apply filter_sorted, chronological_sorted.
  - intros k. apply stably_sorted_filter, chronological_stably_sorted.
  - rewrite length_map. apply Permutation_length.
    apply filter_permutation, chronological_permutation.
Qed.
End AggregatorClaims.

(** ** The feature vector *)

Section Features.
Context {B : Builtins}.
Implicit Types (x q best : QuizSubmission) (l h : list QuizSubmission).

Lemma max_from_latest b best l :
  aware (submitted_at best) = b -> uniform b l ->
  max_from submitted_at best l = Ok (fold_left later_of l best).
Proof.
  intros Hb Hl. revert best Hb.
  induction Hl as [|x l Hx Hl IH]; intros best Hb; simpl; [reflexivity|].
  unfold datetime_gt. rewrite datetime_lt_instant by congruence. cbn [bind].
  unfold later_of at 2.
  destruct (instant (submitted_at best) <? instant (submitted_at x))%Z; now apply IH.
Qed.

(** The submission [max] keeps is the first of the latest ones: all
    before it are strictly earlier, none after it is later. *)
Lemma latest_position earlier best tied l :
  (forall q, In q earlier ->
     (instant (submitted_at q) < instant (submitted_at best))%Z) ->
  (forall q, In q tied ->
     (instant (submitted_at q) <= instant (submitted_at best))%Z) ->
  exists before after,
    earlier ++ best :: tied ++ l = before ++ fold_left later_of l best :: after /\
    (forall q, In q before ->
       (instant (submitted_at q) < instant (submitted_at (fold_left later_of l best)))%Z) /\
    (forall q, In q after ->
       (instant (submitted_at q) <= instant (submitted_at (fold_left later_of l best)))%Z).
Proof.
  revert earlier best tied.
  induction l as [|x l IH]; intros earlier best tied He Ht; simpl.
  - exists earlier, tied. now rewrite app_nil_r.
  - unfold later_of at 2 4 6.
    destruct (instant (submitted_at best) <? instant (submitted_at x))%Z eqn:E.
    + apply Z.ltb_lt in E.
      destruct (IH (earlier ++ best :: tied) x []) as (before & after & Heq & Hb & Ha).
      * intros q Hq. apply in_app_or in Hq as [Hq|[<-|Hq]].
        -- specialize (He q Hq). lia.
        -- assumption.
        -- specialize (Ht q Hq). lia.
      * intros q [].
      * exists before, after. split; [|now split].
        rewrite <- Heq, <- app_assoc. reflexivity.
    + apply Z.ltb_ge in E.
      destruct (IH earlier best (tied ++ [x])) as (before & after & Heq & Hb & Ha).
      * assumption.
      * intros q Hq. apply in_app_or in Hq as [Hq|[<-|[]]]; auto.
      * exists before, after. split; [|now split].
        rewrite <- Heq, <- app_assoc. reflexivity.
Qed.

(** A topic with a single trend point does not enter the third
    feature. *)
Lemma single_point_is_excluded (t : value) (x : float) trends :
  improvement_deltas ((t, [x]) :: trends) = improvement_deltas trends.
Proof. reflexivity. Qed.

Lemma two_points_give_a_delta (t : value) (x y : float) trends :
  improvement_deltas ((t, [x; y]) :: trends) = (y - x)%float :: improvement_deltas trends.
Proof. reflexivity. Qed.

Lemma gained_delta (trend : list float) :
  (2 <= List.length trend)%nat -> gained trend (trend_delta trend).
Proof.
  destruct trend as [|x rest]; cbn [List.length]; intros Hlen; [lia|].
  destruct (exists_last (l := rest)) as (between & y & ->).
  { intros ->. cbn [List.length] in Hlen. lia. }
  exists x, between, y. split; [reflexivity|].
  unfold trend_delta. change (x :: between ++ [y]) with ((x :: between) ++ [y]).
  now rewrite last_last.
Qed.

Lemma gains_of_the_trends (trends : list (list float)) :
  Forall2 gained
    (filter (fun trend => (2 <=? List.length trend)%nat) trends)
    (map trend_delta (filter (fun trend => (1 <? List.length trend)%nat) trends)).
Proof.
  induction trends as [|trend trends IH]; cbn [filter map]; [constructor|].
  change (1 <? List.length trend)%nat with (2 <=? List.length trend)%nat.
  destruct (2 <=? List.length trend)%nat eqn:Hlen; [|assumption].
  cbn [map]. constructor; [|assumption].
  apply gained_delta. now apply Nat.leb_le.
Qed.

(** C9, as the program has it.  For a performance whose history is not
    empty and has comparable timestamps, and whose most recent
    submission has a final score that converts to a float, the feature
    vector has exactly four elements, in this order: the mean of the
    per-topic accuracies, each topic counting once; the number of weak
    areas; the mean of last-minus-first over the trends that have at
    least two points; and the final score of the most recent submission
    of the history, the first one in the list when several share the
    latest timestamp. *)
Theorem features_of_a_performance (performance : StudentPerformance) first rest :
  quiz_history performance = first :: rest ->
  comparable (first :: rest) = true ->
  is_ok (py_float (final_score (latest_of first rest))) = true ->
  exists features,
    _extract_features performance = Ok features /\
    most_recent (quiz_history performance) (latest_of first rest) /\
    four_features performance (latest_of first rest) features.
Proof.
  intros Hh Hc Hscore. unfold _extract_features, latest_of in *. rewrite Hh.
  apply comparable_uniform in Hc as [b Hu].
  inversion Hu as [|? ? Hfirst Hrest]; subst.
  cbn [py_max]. rewrite (max_from_latest _ first rest eq_refl Hrest). cbn [bind].
  destruct (py_float (final_score (fold_left later_of rest first)))
    as [latest_score|e] eqn:Hlatest; [|discriminate Hscore].
  cbn [bind]. eexists. split; [reflexivity|]. split.
  - destruct (latest_position [] first [] rest) as (before & after & Heq & Hb & Ha);
      [intros q [] | intros q [] |].
    cbn [app] in Heq. now exists before, after.
  - eexists _, latest_score. split; [reflexivity|]. split; [|exact Hlatest].
    apply gains_of_the_trends.
Qed.
End Features.

(* ===================================================================== *)
(** * Part VII: the program on the worked inputs                         *)
(* ===================================================================== *)

Section Worked.
#[local] Existing Instance Sample.builtins.
Import Scenario.

(** The three raw records of the scenario normalize to its history. *)
Example scenario_normalizes :
  process_historical_data [raw_physiology1; raw_physiology2; raw_genetics] = Ok history.
Proof. reflexivity. Qed.

(** The concrete scenario of the specification: means 0.70 and 0.30,
    Genetics weak, trends in time order. *)
Example scenario_aggregate :
  exists performance,
    analyze_student_performance history = Ok performance /\
    topic_wise_accuracy performance
    = [(VStr "Physiology", 0.7%float); (VStr "Genetics", 0.3%float)] /\
    weak_areas performance = [VStr "Genetics"] /\
    improvement_trends performance
    = [(VStr "Physiology", [0.8; 0.6]%float); (VStr "Genetics", [0.3%float])].
Proof. eexists. split; [reflexivity|]. repeat split. Qed.

(** Topics that differ by case are different topics. *)
Example topics_are_case_sensitive :
  key_eqb (VStr "Genetics") (VStr "genetics") = false.
Proof. reflexivity. Qed.

(** *** The normalizer *)

Lemma missing_required_field_is_named_witness :
  has_required_fields raw_missing = false /\
  exists field,
    In field required_fields /\
    dict_mem String.eqb field raw_missing = false /\
    preprocess_quiz_submission raw_missing
    = Raise (ValueError ("Missing required field: " ++ field)).
Proof.
  split; [reflexivity|].
  apply missing_required_field_is_named. reflexivity.
Defined.

(** The field named is the first one missing, [score] here. *)
Example raw_missing_names_score :
  preprocess_quiz_submission raw_missing
  = Raise (ValueError "Missing required field: score").
Proof. reflexivity. Qed.

(** C2 fails on this record: its accuracy, ["abc"], has no percent sign
    and is not a number, yet the record is accepted and ["abc"] is what
    the result holds. *)
Lemma non_numeric_accuracy_is_accepted :
  (dict_get String.eqb "accuracy" raw_accuracy_abc = Some (VStr "abc") /\
   has_percent_suffix "abc" = false /\
   float_of_str (strip "%" "abc") = None /\
   exists q,
     preprocess_quiz_submission raw_accuracy_abc = Ok q /\
     accuracy q = VStr "abc") /\
  ~ spec_accuracy_is_validated.
Proof.
  split.
  - repeat split. eexists. split; reflexivity.
  - intros H. specialize (H raw_accuracy_abc "abc" eq_refl (or_introl eq_refl)).
    discriminate H.
Qed.

(** An accuracy written without the percent sign is accepted too, and
    the consumers read it as the same fraction. *)
Example bare_accuracy_is_accepted :
  exists q,
    preprocess_quiz_submission raw_accuracy_bare = Ok q /\
    accuracy q = VStr "80" /\
    accuracy_fraction q = Ok 0.8%float.
Proof. eexists. repeat split. Qed.

(** The failure that C2 expects of normalization comes later, from the
    consumers of the record. *)
Example non_numeric_accuracy_fails_downstream :
  exists q,
    preprocess_quiz_submission raw_accuracy_abc = Ok q /\
    analyze_student_performance [q]
    = Raise (ValueError "could not convert string to float: 'abc'").
Proof. eexists. split; reflexivity. Qed.

Lemma accuracy_is_stored_as_received_witness :
  preprocess_quiz_submission raw_physiology1 = Ok physiology1 /\
  dict_get String.eqb "accuracy" raw_physiology1 = Some (accuracy physiology1) /\
  forall v, exists q',
    preprocess_quiz_submission (dict_set String.eqb "accuracy" v raw_physiology1) = Ok q' /\
    accuracy q' = v.
Proof.
  split; [reflexivity|].
  apply accuracy_is_stored_as_received. reflexivity.
Defined.

(** C7 fails on this batch: one record fails, two normalize, and the
    batch normalizer does not return the two. *)
Lemma batch_with_null_score_is_lost :
  (failures batch_null_score = 1%nat /\
   normalized batch_null_score = [physiology1; genetics] /\
   process_historical_data batch_null_score
   = Raise (TypeError "float() argument must be a string or a real number, not 'NoneType'")) /\
  ~ spec_batch_returns_what_normalizes.
Proof.
  split.
  - repeat split.
  - intros H. specialize (H batch_null_score). discriminate H.
Qed.

Lemma batch_skips_value_errors_witness :
  only_value_errors batch_skipped = true /\
  process_historical_data batch_skipped = Ok (normalized batch_skipped) /\
  (List.length (normalized batch_skipped) + failures batch_skipped)%nat
  = List.length batch_skipped.
Proof.
  split; [reflexivity|].
  apply batch_skips_value_errors. reflexivity.
Defined.

(** Three of the five records are skipped; the two others come back in
    their order. *)
Example batch_skipped_result :
  process_historical_data batch_skipped = Ok [physiology1; genetics] /\
  failures batch_skipped = 3%nat.
Proof. split; reflexivity. Qed.

(** C10.  There is a batch whose records all have every required
    field, one of them with a timestamp that is not a string, which the
    batch normalizer does not skip: the [AttributeError] of that record
    leaves the loop, and the records that normalize are not returned.
    Only a [ValueError] is skipped. *)
Theorem batch_aborts_on_other_exceptions :
  exists batch e,
    forallb has_required_fields batch = true /\
    (exists r v, In r batch /\
                 dict_get String.eqb "submitted_at" r = Some v /\ is_str v = false) /\
    normalized batch <> [] /\
    process_historical_data batch = Raise e /\
    is_ValueError e = false.
Proof.
  exists batch_int_timestamp, (no_attribute (VInt 1704103200) "replace").
  split; [reflexivity|]. split.
  - exists raw_timestamp_int, (VInt 1704103200).
    split; [right; now left | split; reflexivity].
  - split; [discriminate | split; reflexivity].
Qed.

(** A score that is a word is a [ValueError], and is skipped; a score
    that is [null] is a [TypeError], and is not. *)
Example score_text_is_skipped :
  preprocess_quiz_submission raw_score_text
  = Raise (ValueError "could not convert string to float: 'high'") /\
  process_historical_data [raw_physiology1; raw_score_text; raw_genetics]
  = Ok [physiology1; genetics].
Proof. split; reflexivity. Qed.

(** *** The aggregator *)

Lemma aggregate_means_and_weak_areas_witness :
  history <> [] /\
  forallb well_formed history = true /\
  comparable history = true /\
  exists performance,
    analyze_student_performance history = Ok performance /\
    means_and_weak_areas history performance.
Proof.
  split; [discriminate|]. split; [reflexivity|]. split; [reflexivity|].
  apply aggregate_means_and_weak_areas; [discriminate | reflexivity | reflexivity].
Defined.

Lemma trends_follow_the_time_line_witness :
  shuffled <> [] /\
  forallb well_formed shuffled = true /\
  comparable shuffled = true /\
  exists performance,
    analyze_student_performance shuffled = Ok performance /\
    forall t, In t (dict_keys (topic_wise_accuracy performance)) ->
      In t (dict_keys (improvement_trends performance)) /\
      exists l,
        dict_get key_eqb t (improvement_trends performance) = Some (map fraction l) /\
        stably_sorted (submissions_of t shuffled) l /\
        List.length (map fraction l) = List.length (submissions_of t shuffled).
Proof.
  split; [discriminate|]. split; [reflexivity|]. split; [reflexivity|].
  apply trends_follow_the_time_line; [discriminate | reflexivity | reflexivity].
Defined.

(** The later submission comes first in [shuffled], and last in its
    trend; the two submissions of the first day keep their order. *)
Example shuffled_trends :
  exists performance,
    analyze_student_performance shuffled = Ok performance /\
    improvement_trends performance
    = [(VStr "Genetics", [0.3%float]); (VStr "Physiology", [0.8; 0.6]%float)].
Proof. eexists. split; reflexivity. Qed.

(** Naive and aware timestamps in one history cannot be ordered: the
    aggregator raises. *)
Example mixed_timestamps_raise :
  analyze_student_performance
    [physiology1; submission 2 {| wall := 0; utcoffset := None |} "Physiology" "60%" "30"]
  = Raise naive_aware.
Proof. reflexivity. Qed.

(** *** The synthesizer *)

(** C1 fails on the scenario's history: the report has no
    [topic_insights], hence no status label for Physiology or Genetics;
    it is the error report of the lookup of [_categorize_performance],
    a method [InsightGenerator] does not define.  The helper of
    helpers.py would have labelled the two topics "Average" and
    "Needs Improvement". *)
Theorem scenario_report_has_no_status (now : string) :
  generate_comprehensive_report now history = missing_method_report now /\
  topic_insights_of (generate_comprehensive_report now history) = None /\
  categorize_performance (mean_accuracy (VStr "Physiology") history) = "Average" /\
  categorize_performance (mean_accuracy (VStr "Genetics") history) = "Needs Improvement".
Proof. repeat split. Qed.

(** *** The estimator *)

Lemma untrained_rank_is_constant_witness :
  is_trained untrained = false /\
  predict_rank untrained performance = Ok 5000%Z.
Proof.
  split; [reflexivity|].
  apply untrained_rank_is_constant. reflexivity.
Defined.

Lemma features_of_a_performance_witness :
  quiz_history performance = physiology1 :: [physiology2; genetics] /\
  comparable history = true /\
  is_ok (py_float (final_score (latest_of physiology1 [physiology2; genetics]))) = true /\
  exists features,
    _extract_features performance = Ok features /\
    most_recent (quiz_history performance) physiology2 /\
    four_features performance physiology2 features.
Proof.
  split; [reflexivity|]. split; [reflexivity|]. split; [reflexivity|].
  apply (features_of_a_performance performance physiology1 [physiology2; genetics]);
    reflexivity.
Defined.

(** The features of the scenario: mean accuracy 0.5, one weak area,
    mean improvement -0.2 (Physiology alone has two points), and the
    final score 30 of the submission of the second day. *)
Example scenario_features :
  _extract_features performance
  = Ok [((zero + 0.7 + 0.3) / 2)%float; 1%float; ((zero + (0.6 - 0.8)) / 1)%float; 30%float].
Proof. reflexivity. Qed.
End Worked.

(* ===================================================================== *)
(** * Part VIII: more properties of the program                          *)
(* ===================================================================== *)

(** ** The normalizer *)

Section NormalizerMore.
Context {B : Builtins}.
Implicit Types (raw_data : list (string * value)).

Lemma required_fields_present raw_data :
  has_required_fields raw_data = true ->
  exists v_id v_quiz v_user v_at v_score v_acc v_final,
    dict_get String.eqb "id" raw_data = Some v_id /\
    dict_get String.eqb "quiz_id" raw_data = Some v_quiz /\
    dict_get String.eqb "user_id" raw_data = Some v_user /\
    dict_get String.eqb "submitted_at" raw_data = Some v_at /\
    dict_get String.eqb "score" raw_data = Some v_score /\
    dict_get String.eqb "accuracy" raw_data = Some v_acc /\
    dict_get String.eqb "final_score" raw_data = Some v_final.
Proof.
  unfold has_required_fields, required_fields, dict_mem. cbn [forallb]. intros H.
  repeat (apply andb_prop in H as [?H H]).
  repeat match goal with
         | Hm : match dict_get String.eqb ?k raw_data with _ => _ end = true |- _ =>
             destruct (dict_get String.eqb k raw_data) eqn:?; [clear Hm | discriminate Hm]
         end.
  repeat eexists.
Qed.

(** X1.  Normalization accepts a raw submission exactly when it has the
    seven required fields, its timestamp is a string that reads as an
    ISO date, its [quiz], if any, is a mapping, and its score converts
    to a float.  Nothing else is looked at: not the accuracy, not the
    final score, not the identifiers. *)
Theorem normalization_checks raw_data :
  is_ok (preprocess_quiz_submission raw_data)
  = has_required_fields raw_data && timestamp_reads raw_data
    && quiz_is_mapping raw_data && score_converts raw_data.
Proof.
  destruct (has_required_fields raw_data) eqn:Hreq; cbn [andb].
  - destruct (required_fields_present _ Hreq)
      as (v1 & v2 & v3 & v4 & v5 & v6 & v7 & H1 & H2 & H3 & H4 & H5 & H6 & H7).
    unfold preprocess_quiz_submission, timestamp_reads, quiz_is_mapping, score_converts,
      extract_topic, dict_item.
    rewrite (validate_required_ok _ _ Hreq), H1, H2, H3, H4, H5, H6, H7. cbn [bind].
    destruct v4; cbn [parse_submitted_at bind is_ok andb]; try reflexivity.
    destruct (fromisoformat (replace "Z" "+00:00" s)); cbn [bind is_ok andb];
      [|reflexivity].
    destruct (dict_get String.eqb "quiz" raw_data) as [[]|];
      cbn [bind is_ok andb]; try reflexivity;
      destruct (py_float v5); reflexivity.
  - apply validate_required_missing in Hreq as (? & ? & ? & _ & _ & _ & E).
    unfold preprocess_quiz_submission. now rewrite E.
Qed.

(** X2.  What an accepted submission lacks is filled in: the topic is
    the one its [quiz] carries, or "Unknown" when there is no [quiz] or
    no topic in it; an absent speed is "0", absent counts are 0, an
    absent response map is empty. *)
Theorem absent_fields_take_defaults raw_data q :
  preprocess_quiz_submission raw_data = Ok q ->
  topic q = match carried_topic raw_data with
            | Some t => t
            | None => VStr "Unknown"
            end /\
  (dict_mem String.eqb "speed" raw_data = false -> speed q = VStr "0") /\
  (dict_mem String.eqb "correct_answers" raw_data = false -> correct_answers q = VInt 0) /\
  (dict_mem String.eqb "incorrect_answers" raw_data = false ->
     incorrect_answers q = VInt 0) /\
  (dict_mem String.eqb "total_questions" raw_data = false -> total_questions q = VInt 0) /\
  (dict_mem String.eqb "response_map" raw_data = false -> response_map q = VDict []).
Proof.
  intros H. apply preprocess_ok_inv in H
    as (raw_at & raw_score & _ & _ & _ & Htopic & _ & _ & _ & _ & _ & _ & _
        & Hs & Hc & Hi & Ht & Hr).
  split.
  - unfold extract_topic, carried_topic in *.
    destruct (dict_get String.eqb "quiz" raw_data) as [[]|]; try discriminate;
      now injection Htopic as <-.
  - rewrite Hs, Hc, Hi, Ht, Hr. unfold get_default, dict_mem.
    repeat split; intros Habsent;
      match goal with
      | |- context [dict_get String.eqb ?k raw_data] =>
          destruct (dict_get String.eqb k raw_data); [discriminate | reflexivity]
      end.
Qed.

Lemma first_other_failure (batch : list (list (string * value))) :
  only_value_errors batch = false ->
  exists before r after e,
    batch = before ++ r :: after /\
    only_value_errors before = true /\
    preprocess_quiz_submission r = Raise e /\
    is_ValueError e = false.
Proof.
  induction batch as [|r rest IH]; [discriminate|].
  unfold only_value_errors in *. cbn [forallb].
  destruct (preprocess_quiz_submission r) as [q|e] eqn:Hr; cbn [andb].
  - intros H. destruct (IH H) as (before & r' & after & e' & -> & Hb & Hr' & He').
    exists (r :: before), r', after, e'. cbn [forallb app]. now rewrite Hr, Hb.
  - destruct (is_ValueError e) eqn:He; cbn [andb].
    + intros H. destruct (IH H) as (before & r' & after & e' & -> & Hb & Hr' & He').
      exists (r :: before), r', after, e'. cbn [forallb app]. now rewrite Hr, He, Hb.
    + intros _. exists [], r, rest, e. auto.
Qed.

(** The batch normalizer has two outcomes and no other: either every
    failure in the batch is a [ValueError] and it returns the records
    that normalize, in order; or it raises the exception of the first
    record that fails otherwise, and returns nothing. *)
Lemma batch_outcomes (batch : list (list (string * value))) :
  (only_value_errors batch = true /\
   process_historical_data batch = Ok (normalized batch)) \/
  (exists before r after e,
     batch = before ++ r :: after /\
     only_value_errors before = true /\
     preprocess_quiz_submission r = Raise e /\
     is_ValueError e = false /\
     process_historical_data batch = Raise e).
Proof.
  destruct (only_value_errors batch) eqn:H.
  - left. split; [reflexivity|].
    unfold process_historical_data. now rewrite process_loop_skips.
  - right. destruct (first_other_failure _ H) as (before & r & after & e & -> & Hb & Hr & He).
    exists before, r, after, e. repeat split; try assumption.
    unfold process_historical_data. now apply process_loop_aborts.
Qed.

Lemma process_loop_app processed_data (a b : list (list (string * value))) :
  process_loop processed_data (a ++ b)
  = bind (process_loop processed_data a) (fun l => process_loop l b).
Proof.
  revert processed_data. induction a as [|r a IH]; intros acc; cbn [app process_loop].
  - reflexivity.
  - destruct (preprocess_quiz_submission r) as [q|e]; [apply IH|].
    destruct (is_ValueError e); [apply IH | reflexivity].
Qed.

(** X3.  Normalizing a batch with one more record at its end is
    normalizing the batch and then keeping or skipping that record: a
    batch can be processed piece by piece. *)
Theorem batch_with_one_more (batch : list (list (string * value)))
    (submission : list (string * value)) :
  process_historical_data (batch ++ [submission])
  = bind (process_historical_data batch) (fun l => keep_or_skip l submission).
Proof.
  unfold process_historical_data. rewrite process_loop_app.
  destruct (process_loop [] batch) as [l|e]; [|reflexivity].
  cbn [bind process_loop]. unfold keep_or_skip.
  destruct (preprocess_quiz_submission submission) as [q|e]; [reflexivity|].
  now destruct (is_ValueError e).
Qed.
End NormalizerMore.

(** ** The aggregator *)

Section AggregatorMore.
Context {B : Builtins}.
Implicit Types (k t : value) (p h : list QuizSubmission) (q : QuizSubmission).

Lemma for_each_app {S A} (body : S -> A -> result S) (st : S) (a b : list A) :
  for_each body st (a ++ b) = bind (for_each body st a) (fun st' => for_each body st' b).
Proof.
  revert st. induction a as [|x a IH]; intros st; cbn [app for_each]; [reflexivity|].
  destruct (body st x); cbn [bind]; [apply IH | reflexivity].
Qed.

(** Looking a string topic up in a grouping never fails. *)
Lemma grouped_lookup {V} (init : V) op p q :
  all_well_formed p -> is_str (topic q) = true ->
  let d := grouped init op p in
  let seen := existsb (key_eqb (topic q)) (topics_of p) in
  key_in (topic q) d = Ok seen /\
  key_item (topic q) (if seen then d else dict_set key_eqb (topic q) init d)
  = Ok (accumulated init op (topic q) p).
Proof.
  intros Hp Hk. destruct (topics_of_spec p Hp) as (Hstr & Hnd & _).
  cbv zeta. unfold key_in, key_item, dict_mem, grouped.
  rewrite (is_str_hashable _ Hk), (dict_get_tabulated _ _ _ Hk Hstr).
  destruct (existsb (key_eqb (topic q)) (topics_of p)) eqn:E.
  - now rewrite (dict_get_tabulated _ _ _ Hk Hstr), E.
  - split; [reflexivity|].
    rewrite (dict_set_tabulated_new _ _ _ _ Hk Hstr E).
    unfold accumulated. rewrite (submissions_of_unseen _ _ Hp Hk E). cbn [map fold_left].
    clear Hnd. induction Hstr as [|t ks Ht Hks IH]; cbn [map app dict_get].
    + now rewrite key_eqb_refl.
    + cbn [existsb] in E. apply orb_false_elim in E as [E1 E2].
      rewrite (key_eqb_sym t (topic q)), E1 by assumption. auto.
Qed.

Lemma topic_performance_step_raises p q e :
  all_well_formed p -> is_str (topic q) = true ->
  accuracy_fraction q = Raise e ->
  topic_performance_step (grouped zero PrimFloat.add p, grouped 0%Z add_one p) q = Raise e.
Proof.
  intros Hp Hk He.
  destruct (grouped_lookup zero PrimFloat.add p q Hp Hk) as (Hin & Hitem).
  cbv zeta in *. unfold topic_performance_step.
  rewrite Hin. cbn [bind]. rewrite Hitem. cbn [bind]. now rewrite He.
Qed.

(** X4.  The aggregator stops at the first submission whose accuracy
    cannot be read, with the error of that reading: a [ValueError] for
    a text that is not a number, an [AttributeError] for a value that is
    not a string.  The submissions after it are not looked at. *)
Theorem unreadable_accuracy_stops_the_aggregator before q after e :
  forallb well_formed before = true ->
  is_str (topic q) = true ->
  accuracy_fraction q = Raise e ->
  analyze_student_performance (before ++ q :: after) = Raise e.
Proof.
  intros Hwf Hk He.
  assert (Hall : all_well_formed before)
    by (apply Forall_forall; now apply forallb_forall).
  assert (Htopics : analyze_topic_performance (before ++ q :: after) = Raise e).
  { unfold analyze_topic_performance. rewrite for_each_app.
    change (@nil (value * float)) with (grouped zero PrimFloat.add []).
    change (@nil (value * Z)) with (grouped 0%Z add_one []).
    rewrite topic_performance_loop by (constructor || assumption).
    cbn [bind app for_each].
    now rewrite (topic_performance_step_raises before q e Hall Hk He). }
  unfold analyze_student_performance.
  destruct (before ++ q :: after) eqn:E; [now destruct before|].
  now rewrite Htopics.
Qed.

Lemma datetime_lt_mixed (a b : datetime) :
  aware a <> aware b -> datetime_lt a b = Raise naive_aware.
Proof.
  unfold aware, datetime_lt. destruct (utcoffset a), (utcoffset b); congruence.
Qed.

Lemma uniform_extends b x l :
  aware (submitted_at x) = b -> uniform b l -> comparable (x :: l) = true.
Proof. intros Hx Hl. apply (uniform_comparable b). now constructor. Qed.

(** A history that holds a naive and an aware timestamp cannot be
    sorted. *)
Lemma sorted_incomparable l :
  comparable l = false -> sorted submitted_at l = Raise naive_aware.
Proof.
  induction l as [|x l IH]; [discriminate|].
  intros H. cbn [sorted].
  destruct (comparable l) eqn:Hl.
  - apply comparable_uniform in Hl as [b Hu].
    rewrite (sorted_chronological b l Hu). cbn [bind].
    destruct l as [|y l'].
    + unfold comparable in H. cbn in H.
      destruct (aware (submitted_at x)); discriminate H.
    + pose proof (chronological_permutation (y :: l')) as Hperm.
      destruct (chronological (y :: l')) as [|z s] eqn:Hs.
      * apply Permutation_nil in Hperm. discriminate Hperm.
      * cbn [insert_sorted]. rewrite datetime_lt_mixed; [reflexivity|].
        assert (Hz : aware (submitted_at z) = b).
        { rewrite Forall_forall in Hu. apply Hu.
          apply (Permutation_in _ Hperm). now left. }
        intros Heq. rewrite (uniform_extends b x (y :: l')) in H; congruence.
  - now rewrite IH.
Qed.

Lemma aggregate_incomparable h :
  all_well_formed h ->
  comparable h = false ->
  analyze_student_performance h = Raise naive_aware.
Proof.
  intros Hall Hc.
  unfold analyze_student_performance. destruct h as [|first h]; [discriminate|].
  rewrite (analyze_topic_performance_means _ Hall). cbn [bind].
  unfold calculate_improvement_trends. now rewrite sorted_incomparable.
Qed.

(** X5.  A history of well-formed submissions that holds both a
    timestamp with an offset and one without makes the aggregator
    raise the [TypeError] of their comparison, whatever else it holds. *)
Theorem mixed_timestamps_stop_the_aggregator h :
  forallb well_formed h = true ->
  comparable h = false ->
  analyze_student_performance h = Raise naive_aware.
Proof.
  intros Hwf Hc. apply aggregate_incomparable; [|assumption].
  apply Forall_forall. now apply forallb_forall.
Qed.

(** The aggregator returns on well-formed submissions only when their
    timestamps are comparable, and then returns what the claims say. *)
Lemma aggregate_ok_inv h performance :
  forallb well_formed h = true ->
  analyze_student_performance h = Ok performance ->
  exists first rest,
    h = first :: rest /\ comparable h = true /\
    topic_wise_accuracy performance
    = map (fun t => (t, mean_accuracy t h)) (topics_of h) /\
    improvement_trends performance
    = map (fun t => (t, map fraction (submissions_of t (chronological h))))
          (topics_of (chronological h)).
Proof.
  intros Hwf Hok. destruct h as [|first rest]; [discriminate|].
  destruct (comparable (first :: rest)) eqn:Hc.
  - rewrite (analyze_student_performance_ok _ _ Hwf Hc) in Hok.
    injection Hok as <-. exists first, rest. repeat split.
  - rewrite aggregate_incomparable in Hok; [discriminate | | assumption].
    apply Forall_forall. now apply forallb_forall.
Qed.

Lemma list_sum_map_add {A} (f g : A -> nat) (l : list A) :
  list_sum (map (fun x => (f x + g x)%nat) l)
  = (list_sum (map f l) + list_sum (map g l))%nat.
Proof.
  unfold list_sum. induction l as [|x l IH]; cbn [map fold_right]; lia.
Qed.

Lemma list_sum_cons (x : nat) (l : list nat) : list_sum (x :: l) = (x + list_sum l)%nat.
Proof. reflexivity. Qed.

Lemma matches_none k ks :
  is_str k = true -> str_keys ks -> existsb (key_eqb k) ks = false ->
  list_sum (map (fun t => if key_eqb k t then 1%nat else 0%nat) ks) = 0%nat.
Proof.
  intros Hk Hks. induction Hks as [|t ks Ht Hks IH]; cbn [existsb map]; rewrite ?list_sum_cons;
    [reflexivity|].
  intros E. apply orb_false_elim in E as [E1 E2]. rewrite E1, IH by assumption.
  reflexivity.
Qed.

Lemma matches_once k ks :
  is_str k = true -> str_keys ks -> NoDup ks -> In k ks ->
  list_sum (map (fun t => if key_eqb k t then 1%nat else 0%nat) ks) = 1%nat.
Proof.
  intros Hk Hks Hnd. induction Hks as [|t ks Ht Hks IH]; [now intros []|].
  inversion Hnd as [|? ? Hnotin Hnd']; subst. cbn [map]; rewrite ?list_sum_cons; try change (list_sum []) with 0%nat.
  intros [->|Hin].
  - rewrite key_eqb_refl by assumption.
    rewrite matches_none; auto.
    destruct (existsb (key_eqb k) ks) eqn:E; [|reflexivity].
    apply existsb_key_in in E; auto. contradiction.
  - destruct (key_eqb k t) eqn:E.
    + apply key_eqb_eq in E; auto. subst. contradiction.
    + now rewrite IH.
Qed.

(** Every submission of a history belongs to one topic and one only. *)
Lemma submissions_partition p :
  all_well_formed p ->
  list_sum (map (fun t => List.length (submissions_of t p)) (topics_of p))
  = List.length p.
Proof.
  induction p as [|q p IH] using rev_ind; [reflexivity|].
  intros H. apply all_well_formed_snoc in H as [Hp Hq].
  destruct (topics_of_spec p Hp) as (Hstr & Hnd & _).
  pose proof (well_formed_topic _ Hq) as Hk.
  assert (Hsnoc : forall t,
             List.length (submissions_of t (p ++ [q]))
             = (List.length (submissions_of t p)
                + (if key_eqb (topic q) t then 1 else 0))%nat).
  { intros t. rewrite submissions_of_snoc, length_app.
    now destruct (key_eqb (topic q) t). }
  rewrite topics_of_snoc, length_app. cbn [List.length].
  destruct (existsb (key_eqb (topic q)) (topics_of p)) eqn:E.
  - rewrite (map_ext _ _ Hsnoc), list_sum_map_add, (IH Hp).
    rewrite matches_once; auto. now apply existsb_key_in.
  - rewrite map_app, list_sum_app, (map_ext _ _ Hsnoc), list_sum_map_add, (IH Hp).
    rewrite matches_none by assumption. cbn [map]; rewrite ?list_sum_cons; try change (list_sum []) with 0%nat.
    rewrite Hsnoc, key_eqb_refl by assumption.
    rewrite (submissions_of_unseen _ _ Hp Hk E). cbn [List.length]. lia.
Qed.

(** X6.  When the aggregator returns on well-formed submissions, the
    trends hold one point per submission of the history: none is
    dropped, none is counted twice. *)
Theorem every_submission_is_a_trend_point h performance :
  forallb well_formed h = true ->
  analyze_student_performance h = Ok performance ->
  total_points (improvement_trends performance) = List.length h.
Proof.
  intros Hwf Hok.
  destruct (aggregate_ok_inv _ _ Hwf Hok) as (first & rest & _ & _ & _ & ->).
  assert (Hall : all_well_formed h)
    by (apply Forall_forall; now apply forallb_forall).
  assert (Hsorted : all_well_formed (chronological h))
    by apply (Permutation_Forall (Permutation_sym (chronological_permutation _)) Hall).
  unfold total_points. rewrite map_map. cbn [snd].
  rewrite (map_ext _ (fun t => List.length (submissions_of t (chronological h))))
    by (intros t; apply length_map).
  rewrite (submissions_partition _ Hsorted).
  apply Permutation_length, chronological_permutation.
Qed.

(** X7.  When the aggregator returns on well-formed submissions, the
    means and the trends are about the same topics, each topic once in
    either mapping; only their order may differ (first appearance in
    the history for the means, in time for the trends). *)
Theorem means_and_trends_share_their_topics h performance :
  forallb well_formed h = true ->
  analyze_student_performance h = Ok performance ->
  NoDup (dict_keys (topic_wise_accuracy performance)) /\
  NoDup (dict_keys (improvement_trends performance)) /\
  Permutation (dict_keys (topic_wise_accuracy performance))
              (dict_keys (improvement_trends performance)).
Proof.
  intros Hwf Hok.
  destruct (aggregate_ok_inv _ _ Hwf Hok) as (first & rest & _ & _ & -> & ->).
  assert (Hall : all_well_formed h)
    by (apply Forall_forall; now apply forallb_forall).
  assert (Hsorted : all_well_formed (chronological h))
    by apply (Permutation_Forall (Permutation_sym (chronological_permutation _)) Hall).
  destruct (topics_of_spec _ Hall) as (_ & Hnd & Hin).
  destruct (topics_of_spec _ Hsorted) as (_ & Hnd' & Hin').
  unfold dict_keys. rewrite !map_map. cbn [fst]. rewrite !map_id.
  repeat split; try assumption.
  apply NoDup_Permutation; try assumption.
  intros t. rewrite Hin, Hin'. split; intros (q & Hq & <-); exists q; split; auto.
  - now apply (Permutation_in _ (Permutation_sym (chronological_permutation _))).
  - now apply (Permutation_in _ (chronological_permutation _)).
Qed.

Lemma all_distinct_NoDup (l : list Z) : all_distinct l = true -> NoDup l.
Proof.
  induction l as [|x l IH]; cbn [all_distinct]; [constructor|].
  intros H. apply andb_prop in H as [Hx Hl]. constructor; [|auto].
  intros Hin. apply negb_true_iff in Hx.
  assert (Hex : existsb (Z.eqb x) l = true)
    by (apply existsb_exists; exists x; split; [assumption | apply Z.eqb_refl]).
  congruence.
Qed.

Lemma NoDup_map_injective {A} (f : A -> Z) (l : list A) a b :
  NoDup (map f l) -> In a l -> In b l -> f a = f b -> a = b.
Proof.
  induction l as [|x l IH]; [now intros _ []|].
  cbn [map]. intros Hnd Ha Hb Hf. inversion Hnd as [|? ? Hx Hnd']; subst.
  destruct Ha as [->|Ha], Hb as [->|Hb]; auto.
  - elim Hx. rewrite Hf. now apply in_map.
  - elim Hx. rewrite <- Hf. now apply in_map.
Qed.

(** Two orderings of the same submissions along the time line are the
    same list when no two timestamps are equal. *)
Lemma chronological_unique (l1 l2 : list QuizSubmission) :
  Permutation l1 l2 ->
  StronglySorted not_later l1 -> StronglySorted not_later l2 ->
  NoDup (map (fun q => instant (submitted_at q)) l1) ->
  l1 = l2.
Proof.
  revert l2. induction l1 as [|x l1 IH]; intros l2 Hperm H1 H2 Hnd.
  - apply Permutation_nil in Hperm. now subst.
  - destruct l2 as [|y l2];
      [apply Permutation_sym, Permutation_nil in Hperm; discriminate|].
    apply StronglySorted_inv in H1 as [H1 Hx].
    apply StronglySorted_inv in H2 as [H2 Hy].
    rewrite Forall_forall in Hx, Hy.
    assert (Hxy : x = y).
    { assert (Hyin : In y (x :: l1))
        by (apply (Permutation_in _ (Permutation_sym Hperm)); now left).
      assert (Hxin : In x (y :: l2)) by (apply (Permutation_in _ Hperm); now left).
      apply (NoDup_map_injective (fun q => instant (submitted_at q)) (x :: l1));
        [assumption | now left | assumption |].
      assert (Hle1 : (instant (submitted_at x) <= instant (submitted_at y))%Z)
        by (destruct Hyin as [<-|Hyin]; [lia | now apply Hx]).
      assert (Hle2 : (instant (submitted_at y) <= instant (submitted_at x))%Z)
        by (destruct Hxin as [<-|Hxin]; [lia | now apply Hy]).
      cbv beta. lia. }
    subst y. f_equal. apply IH; try assumption.
    + now apply Permutation_cons_inv in Hperm.
    + now inversion Hnd.
Qed.

Lemma permutation_uniform b (l l' : list QuizSubmission) :
  Permutation l l' -> uniform b l -> uniform b l'.
Proof. intros Hperm. now apply Permutation_Forall. Qed.

(** X8.  When no two submissions bear the same timestamp, the trends do
    not depend on the order in which the history lists them: any
    reordering of a history the aggregator accepts is accepted too, and
    yields the same [improvement_trends]. *)
Theorem trends_ignore_the_order_of_the_input h h' performance :
  forallb well_formed h = true ->
  distinct_timestamps h = true ->
  Permutation h h' ->
  analyze_student_performance h = Ok performance ->
  exists performance',
    analyze_student_performance h' = Ok performance' /\
    improvement_trends performance' = improvement_trends performance.
Proof.
  intros Hwf Hd Hperm Hok.
  destruct (aggregate_ok_inv _ _ Hwf Hok) as (first & rest & Hh & Hc & _ & Htr).
  assert (Hwf' : forallb well_formed h' = true).
  { apply forallb_forall. intros q Hq. rewrite forallb_forall in Hwf.
    apply Hwf. now apply (Permutation_in _ (Permutation_sym Hperm)). }
  assert (Hc' : comparable h' = true).
  { apply comparable_uniform in Hc as [b Hu].
    apply (uniform_comparable b). now apply (permutation_uniform b h). }
  destruct h' as [|first' rest'].
  - apply Permutation_sym, Permutation_nil in Hperm. subst h. discriminate.
  - eexists. split; [now apply analyze_student_performance_ok|].
    cbn [improvement_trends]. rewrite Htr.
    assert (Heq : chronological (first' :: rest') = chronological h).
    { apply chronological_unique.
      - rewrite chronological_permutation, chronological_permutation.
        now apply Permutation_sym.
      - apply chronological_sorted.
      - apply chronological_sorted.
      - apply all_distinct_NoDup in Hd.
        apply (Permutation_NoDup (l := map (fun q => instant (submitted_at q)) h));
          [|assumption].
        apply Permutation_map. rewrite chronological_permutation. assumption. }
    now rewrite Heq.
Qed.
End AggregatorMore.

(** ** The estimator *)

Section EstimatorMore.
Context {B : Builtins}.
Implicit Types (x q best : QuizSubmission) (l h : list QuizSubmission).

Lemma max_from_incomparable b best l :
  aware (submitted_at best) = b -> ~ uniform b l ->
  max_from submitted_at best l = Raise naive_aware.
Proof.
  revert best. induction l as [|x l IH]; intros best Hb Hl.
  - elim Hl. constructor.
  - cbn [max_from]. unfold datetime_gt.
    destruct (Bool.bool_dec (aware (submitted_at x)) b) as [Hx|Hx].
    + rewrite datetime_lt_instant by congruence. cbn [bind].
      apply IH.
      * now destruct (instant (submitted_at best) <? instant (submitted_at x))%Z.
      * intros Hu. apply Hl. now constructor.
    + rewrite datetime_lt_mixed; [reflexivity | congruence].
Qed.

(** X9.  The features of a performance exist exactly when its history
    is not empty, its timestamps are comparable, and the final score of
    its latest submission converts to a float; the final scores of the
    other submissions are not read. *)
Theorem features_exist_exactly_when (performance : StudentPerformance) :
  is_ok (_extract_features performance)
  = match quiz_history performance with
    | [] => false
    | first :: rest =>
        comparable (first :: rest)
        && is_ok (py_float (final_score (latest_of first rest)))
    end.
Proof.
  unfold _extract_features, latest_of.
  destruct (quiz_history performance) as [|first rest]; [reflexivity|].
  cbn [py_max].
  destruct (comparable (first :: rest)) eqn:Hc; cbn [andb].
  - apply comparable_uniform in Hc as [b Hu].
    inversion Hu as [|? ? Hfirst Hrest]; subst.
    rewrite (max_from_latest _ first rest eq_refl Hrest). cbn [bind].
    now destruct (py_float (final_score (fold_left later_of rest first))).
  - rewrite (max_from_incomparable (aware (submitted_at first))); [reflexivity.. |].
    intros Hu. now rewrite (uniform_extends _ first rest eq_refl Hu) in Hc.
Qed.
End EstimatorMore.

(** ** The synthesizer *)

Section SynthesizerMore.
Context {B : Builtins}.
Implicit Types (q : QuizSubmission) (h : list QuizSubmission).

Lemma process_quiz_accuracies h accuracies processed :
  fst (fold_left process_quiz h (accuracies, processed))
  = accuracies ++ accuracies_read h.
Proof.
  revert accuracies processed.
  induction h as [|q h IH]; intros a p; cbn [fold_left accuracies_read flat_map].
  - now rewrite app_nil_r.
  - unfold process_quiz at 2.
    destruct (accuracy_fraction q) as [f|e]; cbn [app].
    + destruct (py_float (final_score q)); rewrite IH, <- app_assoc; reflexivity.
    + apply IH.
Qed.

Lemma process_quiz_none h accuracies processed :
  existsb processable h = false ->
  snd (fold_left process_quiz h (accuracies, processed)) = processed.
Proof.
  revert accuracies processed.
  induction h as [|q h IH]; intros a p; cbn [fold_left existsb]; [reflexivity|].
  intros H. apply orb_false_elim in H as [Hq Hh].
  unfold process_quiz at 2. unfold processable in Hq.
  destruct (accuracy_fraction q) as [f|e]; [|now apply IH].
  destruct (py_float (final_score q)); [discriminate Hq | now apply IH].
Qed.

Lemma process_quiz_grows h accuracies processed :
  processed <> [] ->
  snd (fold_left process_quiz h (accuracies, processed)) <> [].
Proof.
  revert accuracies processed.
  induction h as [|q h IH]; intros a p Hp; cbn [fold_left]; [assumption|].
  unfold process_quiz at 2.
  destruct (accuracy_fraction q) as [f|e]; [|now apply IH].
  destruct (py_float (final_score q)); apply IH; [|assumption].
  now destruct p.
Qed.

Lemma process_quiz_some h accuracies processed :
  existsb processable h = true ->
  snd (fold_left process_quiz h (accuracies, processed)) <> [].
Proof.
  revert accuracies processed.
  induction h as [|q h IH]; intros a p; cbn [fold_left existsb]; [discriminate|].
  unfold process_quiz at 2. unfold processable.
  destruct (accuracy_fraction q) as [f|e]; cbn [is_ok andb orb]; [|apply IH].
  destruct (py_float (final_score q)); cbn [is_ok orb]; [|apply IH].
  intros _. apply process_quiz_grows. now destruct p.
Qed.

(** X10.  The synthesizer has three reports and no other.  An empty
    history gives the error report for it.  A history with at least one
    submission whose accuracy and final score both read as numbers
    gives the error report of the missing method.  Any other history
    gives a report that counts no quiz and covers no topic, lists every
    canonical topic as uncovered, and yet averages the accuracies that
    read. *)
Theorem the_three_reports (now : string) h :
  generate_comprehensive_report now h
  = match h with
    | [] => empty_history_report now
    | _ :: _ =>
        if existsb processable h then missing_method_report now
        else blank_report now (round2 (np_mean (accuracies_read h) * 100)%float)
    end.
Proof.
  destruct h as [|q0 h]; [reflexivity|].
  destruct (existsb processable (q0 :: h)) eqn:E.
  - apply report_of_processed_history. now apply process_quiz_some.
  - unfold generate_comprehensive_report, build_report.
    pose proof (process_quiz_accuracies (q0 :: h) [] []) as Ha.
    pose proof (process_quiz_none (q0 :: h) [] [] E) as Hp.
    destruct (fold_left process_quiz (q0 :: h) ([], [])) as [accuracies processed].
    cbn [fst snd app] in Ha, Hp. subst. reflexivity.
Qed.
End SynthesizerMore.

(** ** The helpers *)

Section HelpersMore.
Context {B : Builtins}.

(** X12.  Of a list of at least two scores, only the first and the last
    are looked at: the verdict is whether the last exceeds the first by
    a tenth of the first.  A first score of zero is divided by, and
    raises. *)
Theorem improvement_looks_at_the_ends (first : float) (middle : list float) (last_ : float) :
  detect_significant_improvement (first :: middle ++ [last_])
  = if (first =? 0)%float
    then Raise (ZeroDivisionError "float division by zero")
    else Ok (0.1 <=? (last_ - first) / first)%float.
Proof.
  unfold detect_significant_improvement, float_truediv.
  assert (Hlen : (List.length (first :: middle ++ [last_]) <? 2)%nat = false).
  { apply Nat.ltb_ge. cbn [List.length]. rewrite length_app. cbn [List.length]. lia. }
  rewrite Hlen.
  change (first :: middle ++ [last_]) with ((first :: middle) ++ [last_]).
  rewrite last_last. cbn [app hd].
  now destruct (first =? 0)%float.
Qed.

Lemma too_few_scores (scores : list float) :
  (List.length scores < 2)%nat -> detect_significant_improvement scores = Ok false.
Proof.
  intros H. unfold detect_significant_improvement.
  apply Nat.ltb_lt in H. now rewrite H.
Qed.

(** X13.  The recent activities are returned only if every activity has
    a timestamp that reads and carries no offset; they are then, in
    order, the activities strictly later than the cutoff. *)
Theorem recent_activities_are_those_after_the_cutoff
    (cutoff : Z) (activities kept : list (list (string * value))) :
  get_recent_activities cutoff activities = Ok kept ->
  Forall (fun a => exists taken, reading a = Some taken /\ utcoffset taken = None)
         activities /\
  kept = filter (after_cutoff cutoff) activities.
Proof.
  unfold get_recent_activities. revert kept.
  induction activities as [|a rest IH]; intros kept; cbn [activities_after].
  - intros H. injection H as <-. split; constructor.
  - unfold dict_item, after_cutoff. cbn [filter].
    assert (Hread : reading a = match dict_get String.eqb "submitted_at" a with
                                | Some (VStr s) => fromisoformat s
                                | _ => None
                                end) by reflexivity.
    destruct (dict_get String.eqb "submitted_at" a) as [v|]; [|discriminate].
    cbn [bind]. destruct v; try discriminate. cbn [activity_time].
    rewrite Hread.
    destruct (fromisoformat s) as [taken|]; [|discriminate]. cbn [bind].
    unfold datetime_gt, datetime_lt. cbn [utcoffset wall].
    destruct (utcoffset taken) eqn:Hoff; [discriminate|]. cbn [bind].
    destruct (activities_after _ rest) as [kept'|]; [|discriminate]. cbn [bind].
    intros H. injection H as <-. destruct (IH kept' eq_refl) as [Hall ->].
    split; [|reflexivity].
    constructor; [|assumption]. exists taken. now rewrite Hread.
Qed.

(** X14.  An activity whose timestamp carries an offset makes the
    selection raise the [TypeError] of comparing it with the cutoff,
    when the activities before it are ones the selection accepts. *)
Theorem an_offset_stops_the_recent_activities
    (cutoff : Z) (before after : list (list (string * value)))
    (activity : list (string * value)) (taken : datetime) :
  is_ok (get_recent_activities cutoff before) = true ->
  reading activity = Some taken ->
  aware taken = true ->
  get_recent_activities cutoff (before ++ activity :: after) = Raise naive_aware.
Proof.
  unfold get_recent_activities. intros Hbefore Hread Haware.
  induction before as [|a before IH]; cbn [app activities_after] in *.
  - unfold reading in Hread. unfold dict_item.
    destruct (dict_get String.eqb "submitted_at" activity) as [[]|]; try discriminate.
    cbn [bind activity_time]. rewrite Hread. cbn [bind].
    unfold datetime_gt. rewrite datetime_lt_mixed; [reflexivity|].
    unfold aware at 1. cbn [utcoffset]. congruence.
  - destruct (dict_item "submitted_at" a) as [v|]; [|discriminate]. cbn [bind] in *.
    destruct (activity_time v) as [d|]; [|discriminate]. cbn [bind] in *.
    destruct (datetime_gt d _) as [keep|]; [|discriminate]. cbn [bind] in *.
    destruct (activities_after _ before) as [kept|]; [|discriminate].
    now rewrite IH.
Qed.
End HelpersMore.

(** ** The chart of the trends *)

Section ChartMore.
Context {B : Builtins}.
Implicit Types (d : list (value * list float)) (h : list QuizSubmission).

Lemma fill_data_point_reaches quiz_num point d :
  (1 <= quiz_num)%nat ->
  if reaches quiz_num d
  then exists filled, fill_data_point quiz_num point d = Drawn filled
  else fill_data_point quiz_num point d = Stopped (IndexError "list index out of range").
Proof.
  intros Hpos. revert point.
  induction d as [|[topic scores] d IH]; intros point;
    cbn [reaches forallb fill_data_point snd].
  - now exists point.
  - fold (reaches quiz_num d).
    destruct (quiz_num <=? List.length scores)%nat eqn:Hlen; cbn [andb].
    + apply Nat.leb_le in Hlen.
      destruct (nth_error scores (quiz_num - 1)) as [score|] eqn:Hnth.
      * apply IH.
      * apply nth_error_None in Hnth. lia.
    + apply Nat.leb_gt in Hlen.
      assert (Hnth : nth_error scores (quiz_num - 1) = None)
        by (apply nth_error_None; lia).
      now rewrite Hnth.
Qed.

Lemma reaches_below n m d : (m <= n)%nat -> reaches n d = true -> reaches m d = true.
Proof.
  unfold reaches. rewrite !forallb_forall. intros Hmn H entry Hin.
  specialize (H entry Hin). apply Nat.leb_le in H. apply Nat.leb_le. lia.
Qed.

Lemma reaches_zero d : reaches 0 d = true.
Proof. unfold reaches. now apply forallb_forall. Qed.

Lemma chart_points_reach d len : forall start,
  (1 <= start)%nat ->
  if (len =? 0)%nat || reaches (start + len - 1) d
  then exists points,
         chart_points d (seq start len) = Drawn points /\ List.length points = len
  else chart_points d (seq start len) = Stopped (IndexError "list index out of range").
Proof.
  induction len as [|len IH]; intros start Hpos.
  - cbn [Nat.eqb orb seq chart_points]. now exists [].
  - cbn [Nat.eqb orb seq chart_points].
    replace (start + S len - 1)%nat with (start + len)%nat by lia.
    pose proof (fill_data_point_reaches start
                  [(VStr "quiz", VStr ("Quiz " ++ repr (VInt (Z.of_nat start))))] d Hpos)
      as Hfill.
    specialize (IH (S start) ltac:(lia)).
    replace (S start + len - 1)%nat with (start + len)%nat in IH by lia.
    destruct (reaches (start + len) d) eqn:Hall.
    + rewrite (reaches_below (start + len) start d ltac:(lia) Hall) in Hfill.
      destruct Hfill as [filled ->].
      rewrite orb_true_r in IH. destruct IH as (points & -> & Hlen).
      exists (filled :: points). split; [reflexivity | cbn [List.length]; lia].
    + destruct (reaches start d) eqn:Hstart.
      * destruct Hfill as [filled ->].
        destruct len as [|len].
        -- rewrite Nat.add_0_r in Hall. congruence.
        -- cbn [Nat.eqb orb] in IH. now rewrite IH.
      * now rewrite Hfill.
Qed.

Lemma improvement_chart_cases d :
  match d with
  | [] => generate_improvement_chart d = Stopped StopIteration
  | (_, first) :: _ =>
      if reaches (List.length first) d
      then exists chart,
             generate_improvement_chart d = Drawn chart /\
             List.length (chart_data chart) = List.length first /\
             chart_series chart = series_from 0 (dict_keys d)
      else generate_improvement_chart d
           = Stopped (IndexError "list index out of range")
  end.
Proof.
  destruct d as [|[topic first] rest]; [reflexivity|].
  unfold generate_improvement_chart. cbn [dict_values map snd].
  pose proof (chart_points_reach ((topic, first) :: rest) (List.length first) 1 (le_n 1))
    as Hpoints.
  replace (1 + List.length first - 1)%nat with (List.length first) in Hpoints by lia.
  destruct (reaches (List.length first) ((topic, first) :: rest)) eqn:Hall.
  - rewrite orb_true_r in Hpoints. destruct Hpoints as (points & -> & Hlen).
    eexists. split; [reflexivity|]. split; [exact Hlen | reflexivity].
  - destruct (List.length first) as [|n] eqn:Hn.
    + now rewrite reaches_zero in Hall.
    + cbn [Nat.eqb orb] in Hpoints. now rewrite Hpoints.
Qed.

Lemma improvement_chart_drawn d :
  is_drawn (generate_improvement_chart d)
  = match d with
    | [] => false
    | (_, first) :: _ => reaches (List.length first) d
    end.
Proof.
  pose proof (improvement_chart_cases d) as H.
  destruct d as [|[topic first] rest]; [now rewrite H|].
  destruct (reaches (List.length first) ((topic, first) :: rest)).
  - destruct H as (chart & -> & _). reflexivity.
  - now rewrite H.
Qed.

Lemma series_from_length i topics : List.length (series_from i topics) = List.length topics.
Proof.
  revert i. induction topics as [|t topics IH]; intros i; cbn [series_from List.length];
    [reflexivity | now rewrite IH].
Qed.

(** X15.  The chart of no trend at all raises [StopIteration].  The
    chart of some trends is drawn exactly when none of them is shorter
    than the first: it then has a point for each score of the first
    trend, the scores that longer trends have beyond it being left
    out, and a series for each trend.  Otherwise it raises
    [IndexError]. *)
Theorem the_chart_follows_the_first_trend d :
  match d with
  | [] => generate_improvement_chart d = Stopped StopIteration
  | (_, first) :: _ =>
      if reaches (List.length first) d
      then exists chart,
             generate_improvement_chart d = Drawn chart /\
             List.length (chart_data chart) = List.length first /\
             List.length (chart_series chart) = List.length d
      else generate_improvement_chart d
           = Stopped (IndexError "list index out of range")
  end.
Proof.
  pose proof (improvement_chart_cases d) as H.
  destruct d as [|[topic first] rest]; [exact H|].
  destruct (reaches (List.length first) ((topic, first) :: rest)); [|exact H].
  destruct H as (chart & Hgen & Hdata & Hseries).
  exists chart. repeat split; [assumption.. |].
  rewrite Hseries, series_from_length. unfold dict_keys. apply length_map.
Qed.

Lemma topics_of_from_head (seen : list value) h :
  exists more,
    fold_left
      (fun seen q => if existsb (key_eqb (topic q)) seen then seen else seen ++ [topic q])
      h seen
    = seen ++ more.
Proof.
  revert seen. induction h as [|q h IH]; intros seen; cbn [fold_left].
  - exists []. now rewrite app_nil_r.
  - destruct (existsb (key_eqb (topic q)) seen).
    + apply IH.
    + destruct (IH (seen ++ [topic q])) as [more ->].
      exists ([topic q] ++ more). now rewrite app_assoc.
Qed.

Lemma topics_of_head q h : exists more, topics_of (q :: h) = topic q :: more.
Proof.
  unfold topics_of. cbn [fold_left existsb app].
  destruct (topics_of_from_head [topic q] h) as [more ->]. now exists more.
Qed.

Lemma times_permutation t h h' : Permutation h h' -> times t h = times t h'.
Proof.
  intros H. unfold times, submissions_of.
  apply Permutation_length. now apply filter_permutation.
Qed.

(** X16.  For the trends of an analysed history the chart is drawn
    exactly when no topic has fewer submissions than the topic of the
    earliest submission; a history in which some topic has fewer gets
    no chart. *)
Theorem uneven_topics_stop_the_chart h performance :
  forallb well_formed h = true ->
  analyze_student_performance h = Ok performance ->
  is_drawn (generate_improvement_chart (improvement_trends performance))
  = match chronological h with
    | [] => false
    | earliest :: _ =>
        forallb (fun q => (times (topic earliest) h <=? times (topic q) h)%nat) h
    end.
Proof.
  intros Hwf Hok.
  destruct (aggregate_ok_inv h performance Hwf Hok)
    as (first & rest & Hh & _ & _ & ->).
  assert (Hall : all_well_formed h)
    by (apply Forall_forall; now apply forallb_forall).
  pose proof (chronological_permutation h) as Hperm.
  assert (Hall' : all_well_formed (chronological h))
    by (apply (Permutation_Forall (Permutation_sym Hperm)); assumption).
  destruct (topics_of_spec _ Hall') as (_ & _ & Htopics).
  destruct (chronological h) as [|earliest later] eqn:Hch.
  - subst h. apply Permutation_nil in Hperm. discriminate Hperm.
  - destruct (topics_of_head earliest later) as [more Hhead].
    rewrite improvement_chart_drawn.
    set (row := fun t => (t, map fraction (submissions_of t (earliest :: later)))).
    assert (Hfirst : map row (topics_of (earliest :: later))
                     = row (topic earliest) :: map row more)
      by (rewrite Hhead; reflexivity).
    rewrite Hfirst. unfold row at 1. rewrite <- Hfirst.
    apply Bool.eq_true_iff_eq.
    unfold reaches. rewrite !forallb_forall. subst row. split.
    + intros H q Hq. apply Nat.leb_le.
      rewrite !(times_permutation _ _ _ (Permutation_sym Hperm)).
      assert (Hin : In (topic q) (topics_of (earliest :: later))).
      { apply Htopics. exists q. split; [|reflexivity].
        now apply (Permutation_in _ (Permutation_sym Hperm)). }
      specialize (H _ (in_map _ _ _ Hin)). cbn [snd] in H.
      apply Nat.leb_le in H. rewrite !length_map in H. exact H.
    + intros H entry Hentry. apply in_map_iff in Hentry as (t & <- & Ht). cbn [snd].
      apply Htopics in Ht as (q & Hq & <-).
      specialize (H q (Permutation_in _ Hperm Hq)). apply Nat.leb_le in H.
      rewrite !(times_permutation _ _ _ (Permutation_sym Hperm)) in H.
      apply Nat.leb_le. rewrite !length_map. exact H.
Qed.
End ChartMore.

(** ** The chart of the difficulty levels *)

Section DifficultyMore.
Context {B : Builtins}.
Implicit Types (question : list (string * value))
               (questions : list (list (string * value))).

Lemma for_each_concat {S A} (body : S -> A -> result S) (st : S) (ls : list (list A)) :
  for_each (fun st l => for_each body st l) st ls = for_each body st (List.concat ls).
Proof.
  revert st. induction ls as [|l ls IH]; intros st; cbn [for_each List.concat]; [reflexivity|].
  rewrite for_each_app. destruct (for_each body st l); cbn [bind]; [apply IH | reflexivity].
Qed.

Lemma count_question_levels easy medium hard question :
  if countable question
  then count_question (levels easy medium hard) question
       = Ok (levels (more easy "Easy" [question]) (more medium "Medium" [question])
                    (more hard "Hard" [question]))
  else is_ok (count_question (levels easy medium hard) question) = false.
Proof.
  destruct easy as [et ec], medium as [mt mc], hard as [ht hc].
  unfold countable, count_question, dict_item, dict_mem, more, level_counts, levels.
  cbn [filter]. unfold asked.
  destruct (dict_get String.eqb "difficulty" question) as [level|]; [|reflexivity].
  cbn [bind]. destruct level as [| | | |s| |]; try reflexivity.
  unfold stats_item. cbn [hashable dict_get].
  destruct (String.eqb "Easy" s) eqn:HE;
    [|destruct (String.eqb "Medium" s) eqn:HM;
      [|destruct (String.eqb "Hard" s) eqn:HH; [|reflexivity]]];
    match goal with H : String.eqb _ s = true |- _ => apply String.eqb_eq in H; subst s end;
    cbn [String.eqb Ascii.eqb Bool.eqb orb andb bind];
    (destruct (dict_get String.eqb "is_correct" question) as [v|] eqn:Hc; [|reflexivity]);
    cbn [bind dict_set String.eqb Ascii.eqb Bool.eqb filter];
    unfold answered; rewrite Hc;
    destruct (truthy v); cbn [filter List.length total correct];
    repeat f_equal; lia.
Qed.

Lemma more_cons data name question questions :
  more (more data name [question]) name questions = more data name (question :: questions).
Proof.
  unfold more, level_counts. cbn [filter total correct].
  destruct (asked name question); cbn [filter List.length].
  - destruct (answered question); cbn [List.length]; f_equal; lia.
  - f_equal; lia.
Qed.

Lemma count_questions_levels questions : forall easy medium hard,
  if forallb countable questions
  then for_each count_question (levels easy medium hard) questions
       = Ok (levels (more easy "Easy" questions) (more medium "Medium" questions)
                    (more hard "Hard" questions))
  else is_ok (for_each count_question (levels easy medium hard) questions) = false.
Proof.
  induction questions as [|question questions IH]; intros easy medium hard;
    cbn [forallb for_each].
  - unfold more, level_counts, levels. cbn [filter List.length total correct].
    repeat f_equal; destruct easy, medium, hard; cbn [total correct]; f_equal; lia.
  - pose proof (count_question_levels easy medium hard question) as Hq.
    destruct (countable question); cbn [andb].
    + rewrite Hq. cbn [bind].
      specialize (IH (more easy "Easy" [question]) (more medium "Medium" [question])
                     (more hard "Hard" [question])).
      rewrite !more_cons in IH. exact IH.
    + destruct (count_question _ question); [discriminate Hq | reflexivity].
Qed.

Lemma difficulty_distribution_cases (quiz_data : list (list (list (string * value)))) :
  if forallb countable (List.concat quiz_data)
  then generate_difficulty_distribution quiz_data
       = Ok (map (fun name => difficulty_row (name, level_counts name (List.concat quiz_data)))
                 ["Easy"; "Medium"; "Hard"])
  else is_ok (generate_difficulty_distribution quiz_data) = false.
Proof.
  unfold generate_difficulty_distribution. rewrite for_each_concat.
  pose proof (count_questions_levels (List.concat quiz_data)
                {| total := 0; correct := 0 |} {| total := 0; correct := 0 |}
                {| total := 0; correct := 0 |}) as H.
  change initial_stats
    with (levels {| total := 0; correct := 0 |} {| total := 0; correct := 0 |}
                 {| total := 0; correct := 0 |}).
  destruct (forallb countable (List.concat quiz_data)).
  - rewrite H. reflexivity.
  - now destruct (for_each count_question _ (List.concat quiz_data)).
Qed.
Lemma countable_one_level question :
  countable question = true ->
  ((if asked "Easy" question then 1 else 0)
   + (if asked "Medium" question then 1 else 0)
   + (if asked "Hard" question then 1 else 0) = 1)%nat.
Proof.
  unfold countable, asked.
  destruct (dict_get String.eqb "difficulty" question) as [[| | | |s| |]|];
    try discriminate.
  destruct (String.eqb "Easy" s) eqn:HE;
    [|destruct (String.eqb "Medium" s) eqn:HM;
      [|destruct (String.eqb "Hard" s) eqn:HH; [|discriminate]]];
    match goal with H : String.eqb _ s = true |- _ => apply String.eqb_eq in H; subst s end;
    reflexivity.
Qed.

Lemma every_question_has_its_level questions :
  forallb countable questions = true ->
  (total (level_counts "Easy" questions) + total (level_counts "Medium" questions)
   + total (level_counts "Hard" questions))%Z
  = Z.of_nat (List.length questions).
Proof.
  unfold level_counts. cbn [total].
  induction questions as [|question questions IH]; cbn [forallb filter List.length];
    [reflexivity|].
  intros H. apply andb_prop in H as [Hq Hall]. specialize (IH Hall).
  pose proof (countable_one_level question Hq) as Hone.
  destruct (asked "Easy" question), (asked "Medium" question), (asked "Hard" question);
    cbn [List.length]; lia.
Qed.

(** X17.  The difficulty chart is built exactly when every question of
    every quiz says whether it was answered correctly and has one of
    the levels [Easy], [Medium] and [Hard], written so; a question of
    any other level, or of none, leaves no chart. *)
Theorem the_chart_needs_the_three_levels (quiz_data : list (list (list (string * value)))) :
  is_ok (generate_difficulty_distribution quiz_data)
  = forallb countable (List.concat quiz_data).
Proof.
  pose proof (difficulty_distribution_cases quiz_data) as H.
  destruct (forallb countable (List.concat quiz_data)); [now rewrite H | exact H].
Qed.

(** X18.  A difficulty chart has the three levels in their order, each
    with the number of its questions and of those answered correctly;
    the totals add up to the number of questions of all the quizzes,
    and no level has more correct answers than questions. *)
Theorem the_chart_counts_every_question
    (quiz_data : list (list (list (string * value)))) (rows : list DifficultyRow) :
  generate_difficulty_distribution quiz_data = Ok rows ->
  rows = map (fun name => difficulty_row (name, level_counts name (List.concat quiz_data)))
             ["Easy"; "Medium"; "Hard"] /\
  fold_right Z.add 0%Z (map dr_total rows)
  = Z.of_nat (List.length (List.concat quiz_data)) /\
  Forall (fun row => (0 <= dr_correct row <= dr_total row)%Z) rows.
Proof.
  intros Hrows. pose proof (difficulty_distribution_cases quiz_data) as H.
  destruct (forallb countable (List.concat quiz_data)) eqn:Hall.
  - rewrite H in Hrows. injection Hrows as <-. split; [reflexivity|]. split.
    + cbn [map fold_right difficulty_row dr_total].
      rewrite <- (every_question_has_its_level _ Hall).
      unfold level_counts. cbn [total]. lia.
    + repeat constructor; cbn [difficulty_row dr_correct dr_total level_counts total correct];
        try lia; apply inj_le, filter_length_le.
  - rewrite Hrows in H. discriminate H.
Qed.
End DifficultyMore.

(** ** The properties above, on worked inputs *)

Section WorkedMore.
#[local] Existing Instance Sample.builtins.
Import Scenario MoreScenario Refuting.

Lemma absent_fields_take_defaults_witness :
  preprocess_quiz_submission raw_bare = Ok bare /\
  topic bare = VStr "Unknown" /\
  (dict_mem String.eqb "speed" raw_bare = false -> speed bare = VStr "0") /\
  (dict_mem String.eqb "correct_answers" raw_bare = false -> correct_answers bare = VInt 0) /\
  (dict_mem String.eqb "incorrect_answers" raw_bare = false ->
     incorrect_answers bare = VInt 0) /\
  (dict_mem String.eqb "total_questions" raw_bare = false -> total_questions bare = VInt 0) /\
  (dict_mem String.eqb "response_map" raw_bare = false -> response_map bare = VDict []).
Proof.
  split; [reflexivity|].
  apply (absent_fields_take_defaults raw_bare bare). reflexivity.
Defined.

Lemma unreadable_accuracy_stops_the_aggregator_witness :
  forallb well_formed [physiology1] = true /\
  is_str (topic unreadable) = true /\
  accuracy_fraction unreadable
  = Raise (ValueError "could not convert string to float: 'abc'") /\
  analyze_student_performance ([physiology1] ++ unreadable :: [genetics])
  = Raise (ValueError "could not convert string to float: 'abc'").
Proof.
  split; [reflexivity|]. split; [reflexivity|]. split; [reflexivity|].
  apply unreadable_accuracy_stops_the_aggregator; reflexivity.
Defined.

Lemma mixed_timestamps_stop_the_aggregator_witness :
  forallb well_formed mixed = true /\
  comparable mixed = false /\
  analyze_student_performance mixed = Raise naive_aware.
Proof.
  split; [reflexivity|]. split; [reflexivity|].
  apply mixed_timestamps_stop_the_aggregator; reflexivity.
Defined.

Lemma every_submission_is_a_trend_point_witness :
  forallb well_formed history = true /\
  analyze_student_performance history = Ok performance /\
  total_points (improvement_trends performance) = 3%nat.
Proof.
  split; [reflexivity|]. split; [reflexivity|].
  apply (every_submission_is_a_trend_point history performance); reflexivity.
Defined.

Lemma means_and_trends_share_their_topics_witness :
  forallb well_formed history = true /\
  analyze_student_performance history = Ok performance /\
  NoDup (dict_keys (topic_wise_accuracy performance)) /\
  NoDup (dict_keys (improvement_trends performance)) /\
  Permutation (dict_keys (topic_wise_accuracy performance))
              (dict_keys (improvement_trends performance)).
Proof.
  split; [reflexivity|]. split; [reflexivity|].
  apply (means_and_trends_share_their_topics history performance); reflexivity.
Defined.

Lemma trends_ignore_the_order_of_the_input_witness :
  forallb well_formed in_order = true /\
  distinct_timestamps in_order = true /\
  analyze_student_performance in_order = Ok analysed /\
  exists performance',
    analyze_student_performance (rev in_order) = Ok performance' /\
    improvement_trends performance' = improvement_trends analysed.
Proof.
  split; [reflexivity|]. split; [reflexivity|]. split; [reflexivity|].
  apply (trends_ignore_the_order_of_the_input in_order (rev in_order) analysed);
    try reflexivity.
  apply Permutation_rev.
Defined.

Lemma recent_activities_are_those_after_the_cutoff_witness :
  get_recent_activities first_day_at_ten [late; early] = Ok [late] /\
  Forall (fun a => exists taken, reading a = Some taken /\ utcoffset taken = None)
         [late; early] /\
  [late] = filter (after_cutoff first_day_at_ten) [late; early].
Proof.
  split; [reflexivity|].
  apply recent_activities_are_those_after_the_cutoff. reflexivity.
Defined.

Lemma an_offset_stops_the_recent_activities_witness :
  is_ok (get_recent_activities first_day_at_ten [late]) = true /\
  reading with_offset = Some t2 /\
  aware t2 = true /\
  get_recent_activities first_day_at_ten ([late] ++ with_offset :: [early])
  = Raise naive_aware.
Proof.
  split; [reflexivity|]. split; [reflexivity|]. split; [reflexivity|].
  apply (an_offset_stops_the_recent_activities _ _ _ _ t2); reflexivity.
Defined.

(** The history of the specification's scenario gets no chart of its
    trends: Physiology, the topic of its earliest submission, has two
    submissions and Genetics one. *)
Lemma uneven_topics_stop_the_chart_witness :
  forallb well_formed history = true /\
  analyze_student_performance history = Ok performance /\
  is_drawn (generate_improvement_chart (improvement_trends performance)) = false.
Proof.
  split; [reflexivity|]. split; [reflexivity|].
  apply (uneven_topics_stop_the_chart history performance); reflexivity.
Defined.

Lemma the_chart_counts_every_question_witness :
  generate_difficulty_distribution two_quizzes = Ok three_rows /\
  three_rows
  = map (fun name => difficulty_row (name, level_counts name (List.concat two_quizzes)))
        ["Easy"; "Medium"; "Hard"] /\
  fold_right Z.add 0%Z (map dr_total three_rows)
  = Z.of_nat (List.length (List.concat two_quizzes)) /\
  Forall (fun row => (0 <= dr_correct row <= dr_total row)%Z) three_rows.
Proof.
  split; [reflexivity|].
  apply the_chart_counts_every_question. reflexivity.
Defined.
(** *** The claims that fail as worded *)

(** C3 fails on this history, which the normalizer returns: the
    accuracy of its second submission is not a number, and the
    aggregator raises where the claim has it return the means. *)
Lemma unreadable_accuracy_has_no_means :
  (process_historical_data [raw_physiology1; raw_accuracy_abc]
   = Ok [physiology1; accuracy_abc] /\
   analyze_student_performance [physiology1; accuracy_abc]
   = Raise (ValueError "could not convert string to float: 'abc'")) /\
  ~ spec_means_of_every_history.
Proof.
  split; [split; reflexivity|].
  intros H. destruct (H [physiology1; accuracy_abc]) as (p & Hp & _); [discriminate|].
  discriminate Hp.
Qed.

(** C4 fails on this history, which the normalizer returns: its
    submissions are well formed, but one timestamp ends in Z and the
    other carries no offset, and the aggregator raises where the claim
    has it return the trends. *)
Lemma timestamp_without_offset_has_no_trends :
  (process_historical_data [raw_physiology1; raw_no_offset]
   = Ok [physiology1; no_offset] /\
   forallb well_formed [physiology1; no_offset] = true /\
   analyze_student_performance [physiology1; no_offset] = Raise naive_aware) /\
  ~ spec_trends_of_every_history.
Proof.
  split; [repeat split|].
  intros H. destruct (H [physiology1; no_offset]) as (p & Hp & _); [discriminate|].
  discriminate Hp.
Qed.

(** C9 fails on this performance, which the normalizer and the
    aggregator return: the final score of its most recent submission is
    not a number, and the estimator raises where the claim has it
    return four features. *)
Lemma unreadable_final_score_has_no_features :
  (process_historical_data [raw_physiology1; raw_final_abc]
   = Ok [physiology1; final_abc] /\
   analyze_student_performance [physiology1; final_abc] = Ok analysed_final_abc /\
   _extract_features analysed_final_abc
   = Raise (ValueError "could not convert string to float: 'abc'")) /\
  ~ spec_features_of_every_performance.
Proof.
  split; [repeat split|].
  intros H. destruct (H analysed_final_abc) as (latest & features & Hf & _).
  discriminate Hf.
Qed.
End WorkedMore.
